(** * ReadRabbit: the client's state logic, embedded and verified

    The development follows the two source components that carry logic:
    the application shell [App] (article list, saved set, dismiss and
    replace, persistence in localStorage, rendering of the single view)
    and the admin panel [AdminPage] (manual article form).

    React specifics are modelled as they are used in the source:
    - a handler closes over the state of the render that created it (the
      snapshot) and schedules updates, some of them functional
      ([setX(prev => ...)]), which apply to the current state;
    - [await fetch(...)] is an interaction with the backend, which is
      external: the handler is a tree of requests whose continuation takes
      whatever the backend answers;
    - [try / catch / finally] are given their JavaScript meaning on that
      tree. *)

From Stdlib Require Import ZArith NArith List String Ascii Lia.
From stdpp Require Import base tactics option list countable gmap.
From Stdlib Require Import DecimalString.

Local Open Scope Z_scope.
Local Open Scope list_scope.

(* ===================================================================== *)
(** ** JavaScript values used by the client *)
(* ===================================================================== *)

(** A JavaScript string is a sequence of UTF-16 code units. *)
Abbreviation jsstring := (list N).

Module Js.

(** A literal of the source text. *)
Definition lit (s : string) : jsstring :=
  map N_of_ascii (list_ascii_of_string s).

(** Code units that [String.prototype.trim] strips: WhiteSpace and
    LineTerminator of ECMAScript (all of them in the basic plane). *)
Definition is_white_space (c : N) : bool :=
  ((9 <=? c) && (c <=? 13) ||
   (c =? 32) || (c =? 160) || (c =? 5760) ||
   ((8192 <=? c) && (c <=? 8202)) ||
   (c =? 8232) || (c =? 8233) || (c =? 8239) || (c =? 8287) ||
   (c =? 12288) || (c =? 65279))%N.

Fixpoint trimStart (s : jsstring) : jsstring :=
  match s with
  | c :: s' => if is_white_space c then trimStart s' else s
  | [] => []
  end.

Definition trimEnd (s : jsstring) : jsstring :=
  rev (trimStart (rev s)).

(** [s.trim()] *)
Definition trim (s : jsstring) : jsstring := trimEnd (trimStart s).

(** Truthiness of a string: every string but the empty one. *)
Definition truthy (s : jsstring) : bool :=
  match s with [] => false | _ :: _ => true end.

(** [a || b] on strings that may be undefined. *)
Definition or_else (a : option jsstring) (b : jsstring) : jsstring :=
  match a with
  | Some s => if truthy s then s else b
  | None => b
  end.

(** Decimal rendering of an integer in a template literal. *)
Definition of_Z (z : Z) : jsstring :=
  lit (NilZero.string_of_int (Z.to_int z)).

End Js.

(* ===================================================================== *)
(** ** Articles *)
(* ===================================================================== *)

(** The id of an article is owned by the server and arrives through JSON:
    a number or a string.  [===] never identifies a number with a
    string. *)
Inductive ArticleId : Type :=
| IdNum (n : Z)
| IdStr (s : jsstring).

Global Instance ArticleId_eq_dec : EqDecision ArticleId.
Proof. solve_decision. Defined.

(** [`${articleId}`], for the ids a backend hands out: integers that a
    double holds exactly and prints in plain decimal (below 1e21 in
    magnitude), and strings. *)
Definition id_text (i : ArticleId) : jsstring :=
  match i with
  | IdNum n => Js.of_Z n
  | IdStr s => s
  end.

Record Article : Type := mkArticle {
  id : ArticleId;
  title : jsstring;
  url : jsstring;
  source : jsstring;
  author : jsstring;
  summary : jsstring;
  topics : list jsstring;
  read_time : option Z;
  source_type : jsstring
}.

Global Instance Article_eq_dec : EqDecision Article.
Proof. solve_decision. Defined.

(** [a.id === i] *)
Definition has_id (i : ArticleId) (a : Article) : bool :=
  bool_decide (id a = i).

(** [list.some((a) => a.id === i)] *)
Definition some_id (i : ArticleId) (l : list Article) : bool :=
  existsb (has_id i) l.

(* ===================================================================== *)
(** ** Requests, answers and handlers *)
(* ===================================================================== *)

Module Effects.

Inductive Method : Type := GET | POST | DELETE.

(** A value handed to [JSON.stringify] for a request body. *)
#[warnings="-register-all"] Inductive Json : Type :=
| JNull
| JNumber (z : Z)
| JString (s : jsstring)
| JArray (l : list Json)
| JObject (fields : list (jsstring * Json)).

(** [fetch(target, { method, body })] *)
Record Request : Type := mkRequest {
  method : Method;
  target : jsstring;
  body : option Json
}.

(** A thrown value; every one the client meets is an [Error]. *)
Record JsError : Type := mkError { message : jsstring }.

(** What the outside world sees of a handler, oldest first. *)
Inductive Event : Type :=
| Requested (r : Request)
| Logged (label : jsstring) (e : JsError)
| Scheduled (ms : N).

Section Programs.
(** [St] is the component's state, [Payload] what [response.json()]
    resolves to. *)
Context {St Payload : Type}.

(** A settled response: its [ok] flag and the result of reading its
    body as JSON, which rejects when the body is not JSON. *)
Record Response : Type := mkResponse {
  ok : bool;
  json_body : JsError + Payload
}.

(** [fetch] rejects on a network failure and resolves otherwise,
    whatever the HTTP status. *)
Inductive FetchResult : Type :=
| Rejected (e : JsError)
| Resolved (r : Response).

(** The backend is external: its answer may depend on everything that
    happened before. *)
Definition Backend : Type := list Event -> Request -> FetchResult.

Inductive Prog (A : Type) : Type :=
| Ret (a : A)
| Throw (e : JsError)
| Fetch (r : Request) (k : FetchResult -> Prog A)
| SetState (f : St -> St) (k : Prog A)
| ConsoleError (label : jsstring) (e : JsError) (k : Prog A)
| SetTimeout (callback : St -> St) (ms : N) (k : Prog A)
| Spawn (p : Prog unit) (k : Prog A)
| OutOfModel.

Global Arguments Ret {A} a.
Global Arguments Throw {A} e.
Global Arguments Fetch {A} r k.
Global Arguments SetState {A} f k.
Global Arguments ConsoleError {A} label e k.
Global Arguments SetTimeout {A} callback ms k.
Global Arguments Spawn {A} p k.
Global Arguments OutOfModel {A}.

Fixpoint bind {A B : Type} (p : Prog A) (f : A -> Prog B) : Prog B :=
  match p with
  | Ret a => f a
  | Throw e => Throw e
  | Fetch r k => Fetch r (fun x => bind (k x) f)
  | SetState g k => SetState g (bind k f)
  | ConsoleError l e k => ConsoleError l e (bind k f)
  | SetTimeout c ms k => SetTimeout c ms (bind k f)
  | Spawn q k => Spawn q (bind k f)
  | OutOfModel => OutOfModel
  end.

(** [try { p } catch (err) { h err }] *)
Fixpoint try_catch {A : Type} (p : Prog A) (h : JsError -> Prog A) : Prog A :=
  match p with
  | Ret a => Ret a
  | Throw e => h e
  | Fetch r k => Fetch r (fun x => try_catch (k x) h)
  | SetState g k => SetState g (try_catch k h)
  | ConsoleError l e k => ConsoleError l e (try_catch k h)
  | SetTimeout c ms k => SetTimeout c ms (try_catch k h)
  | Spawn q k => Spawn q (try_catch k h)
  | OutOfModel => OutOfModel
  end.

(** [try { p } finally { fin }]: [fin] runs on both exits and the
    exit of [p] is kept. *)
Fixpoint try_finally {A : Type} (p : Prog A) (fin : Prog unit) : Prog A :=
  match p with
  | Ret a => bind fin (fun _ => Ret a)
  | Throw e => bind fin (fun _ => Throw e)
  | Fetch r k => Fetch r (fun x => try_finally (k x) fin)
  | SetState g k => SetState g (try_finally k fin)
  | ConsoleError l e k => ConsoleError l e (try_finally k fin)
  | SetTimeout c ms k => SetTimeout c ms (try_finally k fin)
  | Spawn q k => Spawn q (try_finally k fin)
  | OutOfModel => OutOfModel
  end.

(** [await fetch(...)] *)
Definition fetch (r : Request) : Prog Response :=
  Fetch r (fun x =>
    match x with
    | Rejected e => Throw e
    | Resolved resp => Ret resp
    end).

(** [await response.json()] *)
Definition json (resp : Response) : Prog Payload :=
  match json_body resp with
  | inl e => Throw e
  | inr d => Ret d
  end.

Definition setState (f : St -> St) : Prog unit := SetState f (Ret tt).
Definition console_error (label : jsstring) (e : JsError) : Prog unit :=
  ConsoleError label e (Ret tt).
Definition setTimeout (callback : St -> St) (ms : N) : Prog unit :=
  SetTimeout callback ms (Ret tt).
(** A call of an async function that is not awaited. *)
Definition spawn (p : Prog unit) : Prog unit := Spawn p (Ret tt).

(** How a handler ends. *)
Inductive Outcome (A : Type) : Type :=
| Returned (a : A)
| Uncaught (e : JsError)
| LeftModel.
Global Arguments Returned {A} a.
Global Arguments Uncaught {A} e.
Global Arguments LeftModel {A}.

Record Run (A : Type) : Type := mkRun {
  final : St;
  events : list Event;
  outcome : Outcome A
}.
Global Arguments mkRun {A} final events outcome.
Global Arguments final {A} r.
Global Arguments events {A} r.
Global Arguments outcome {A} r.

(** One execution of a handler against a backend, from state [st]
    after the events [h].  State updates apply in program order; a
    spawned call runs to its end at the place of the call, and what it
    throws is not seen by the caller.  The code only starts such a call
    there: its first request is issued at the call, what follows its
    awaits comes after the caller's own next steps.  The run is thus one
    of the orders in which the events can come; the requests of the
    caller and of the spawned calls keep their order among themselves. *)
Fixpoint run {A : Type} (backend : Backend) (p : Prog A)
    (st : St) (h : list Event) : Run A :=
  match p with
  | Ret a => mkRun st h (Returned a)
  | Throw e => mkRun st h (Uncaught e)
  | Fetch r k => run backend (k (backend h r)) st (h ++ [Requested r])
  | SetState f k => run backend k (f st) h
  | ConsoleError l e k => run backend k st (h ++ [Logged l e])
  | SetTimeout _ ms k => run backend k st (h ++ [Scheduled ms])
  | Spawn q k =>
      let r := run backend q st h in
      run backend k (final r) (events r)
  | OutOfModel => mkRun st h LeftModel
  end.

End Programs.

Global Arguments Response : clear implicits.
Global Arguments FetchResult : clear implicits.
Global Arguments Backend : clear implicits.
Global Arguments Prog : clear implicits.
Global Arguments Run : clear implicits.

Global Instance Prog_ret {St P} : MRet (Prog St P) := fun _ a => Ret a.
Global Instance Prog_bind {St P} : MBind (Prog St P) :=
  fun _ _ f p => bind p f.

(** The requests among the events, in order. *)
Definition requests (h : list Event) : list Request :=
  omap (fun e => match e with Requested r => Some r | _ => None end) h.

End Effects.

(* ===================================================================== *)
(** ** The application shell (App.jsx) *)
(* ===================================================================== *)

Module App.
Import Effects.

Inductive Tab : Type := discover | saved.
Inductive ViewMode : Type := single | cards | feed.

Global Instance Tab_eq_dec : EqDecision Tab.
Proof. solve_decision. Defined.
Global Instance ViewMode_eq_dec : EqDecision ViewMode.
Proof. solve_decision. Defined.

(** The [useState] cells of the component. *)
Record State : Type := mkState {
  articles : list Article;
  savedArticles : list Article;
  loading : bool;
  error : option jsstring;
  shuffling : bool;
  activeTab : Tab;
  viewMode : ViewMode;
  singleIndex : nat;
  showAdmin : bool;
  showAgent : bool
}.

(** The initial values given to [useState]. *)
Definition initial : State :=
  mkState [] [] true None false discover cards 0 false false.

(** The JSON body of an answer, as far as the shell reads it: the
    [articles] field, absent when the body has none (the body of an error
    answer, for one). *)
Record Data : Type := mkData { data_articles : option (list Article) }.

Abbreviation P := (Prog State Data).

(** *** The setters; [_fn] is the functional form [setX(prev => ...)] *)

Definition setArticles_fn (f : list Article -> list Article) : P unit :=
  setState (fun st =>
    mkState (f (articles st)) (savedArticles st) (loading st) (error st)
      (shuffling st) (activeTab st) (viewMode st) (singleIndex st)
      (showAdmin st) (showAgent st)).
Definition setArticles (v : list Article) : P unit :=
  setArticles_fn (fun _ => v).

Definition setSavedArticles_fn (f : list Article -> list Article) : P unit :=
  setState (fun st =>
    mkState (articles st) (f (savedArticles st)) (loading st) (error st)
      (shuffling st) (activeTab st) (viewMode st) (singleIndex st)
      (showAdmin st) (showAgent st)).
Definition setSavedArticles (v : list Article) : P unit :=
  setSavedArticles_fn (fun _ => v).

Definition setLoading (v : bool) : P unit :=
  setState (fun st =>
    mkState (articles st) (savedArticles st) v (error st)
      (shuffling st) (activeTab st) (viewMode st) (singleIndex st)
      (showAdmin st) (showAgent st)).

Definition setError (v : option jsstring) : P unit :=
  setState (fun st =>
    mkState (articles st) (savedArticles st) (loading st) v
      (shuffling st) (activeTab st) (viewMode st) (singleIndex st)
      (showAdmin st) (showAgent st)).

Definition setShuffling (v : bool) : P unit :=
  setState (fun st =>
    mkState (articles st) (savedArticles st) (loading st) (error st)
      v (activeTab st) (viewMode st) (singleIndex st)
      (showAdmin st) (showAgent st)).

Definition setActiveTab (v : Tab) : P unit :=
  setState (fun st =>
    mkState (articles st) (savedArticles st) (loading st) (error st)
      (shuffling st) v (viewMode st) (singleIndex st)
      (showAdmin st) (showAgent st)).

Definition setViewMode (v : ViewMode) : P unit :=
  setState (fun st =>
    mkState (articles st) (savedArticles st) (loading st) (error st)
      (shuffling st) (activeTab st) v (singleIndex st)
      (showAdmin st) (showAgent st)).

Definition setSingleIndex_fn (f : nat -> nat) : P unit :=
  setState (fun st =>
    mkState (articles st) (savedArticles st) (loading st) (error st)
      (shuffling st) (activeTab st) (viewMode st) (f (singleIndex st))
      (showAdmin st) (showAgent st)).
Definition setSingleIndex (v : nat) : P unit :=
  setSingleIndex_fn (fun _ => v).

Definition setShowAdmin (v : bool) : P unit :=
  setState (fun st =>
    mkState (articles st) (savedArticles st) (loading st) (error st)
      (shuffling st) (activeTab st) (viewMode st) (singleIndex st)
      v (showAgent st)).

Definition setShowAgent (v : bool) : P unit :=
  setState (fun st =>
    mkState (articles st) (savedArticles st) (loading st) (error st)
      (shuffling st) (activeTab st) (viewMode st) (singleIndex st)
      (showAdmin st) v).

(** Reading [.length] of [data.articles] when the field is absent throws
    a TypeError; the text is the engine's. *)
Definition undefined_length : JsError :=
  mkError (Js.lit "Cannot read properties of undefined (reading 'length')").

Section Handlers.

(** [import.meta.env.VITE_API_URL || '/api'] *)
Variable API_BASE : jsstring.

Definition random_url (count : Z) : jsstring :=
  API_BASE ++ Js.lit "/articles/random?count=" ++ Js.of_Z count.

Definition dismiss_url (articleId : ArticleId) : jsstring :=
  API_BASE ++ Js.lit "/articles/" ++ id_text articleId ++ Js.lit "/dismiss".

(** [fetch(url)] *)
Definition get (u : jsstring) : Request := mkRequest GET u None.
(** [fetch(url, { method: 'POST' })] *)
Definition post (u : jsstring) : Request := mkRequest POST u None.

(** [useCallback(..., [viewMode])].  An ok answer whose JSON has no
    [articles] array would store [undefined] in the list, which the state
    of the model cannot hold: the model stops there. *)
Definition fetchArticles (snap : State) : P unit :=
  try_finally
    (try_catch
       (setShuffling true;;
        let count :=
          match viewMode snap with single => 1 | feed => 8 | cards => 4 end in
        response ← fetch (get (random_url count));
        if negb (ok response)
        then Throw (mkError (Js.lit "Failed to fetch articles"))
        else
          data ← json response;
          match data_articles data with
          | Some l => setArticles l
          | None => OutOfModel
          end;;
          setSingleIndex 0;;
          setError None)
       (fun err => setError (Some (message err))))
    (setLoading false;;
     setShuffling false).

(** The answer to the dismiss POST is not inspected.  In the single view
    the fetched list replaces the list; in the other views
    [data.articles[0]] is mapped over the entries with the dismissed id. *)
Definition handleDismiss (snap : State) (articleId : ArticleId) : P unit :=
  try_catch
    (_ ← fetch (post (dismiss_url articleId));
     if decide (viewMode snap = single) then
       response ← fetch (get (random_url 1));
       data ← json response;
       match data_articles data with
       | None => Throw undefined_length
       | Some l =>
           if (0 <? length l)%nat then setArticles l else mret tt
       end
     else
       response ← fetch (get (random_url 1));
       data ← json response;
       match data_articles data with
       | None => Throw undefined_length
       | Some [] => mret tt
       | Some (first :: _) =>
           setArticles_fn
             (map (fun a => if has_id articleId a then first else a))
       end)
    (fun err => console_error (Js.lit "Failed to dismiss article:") err).

(** The existence check reads the [savedArticles] of the render; the
    update is functional. *)
Definition handleSave (snap : State) (article : Article) : P unit :=
  let isAlreadySaved := some_id (id article) (savedArticles snap) in
  if isAlreadySaved then
    setSavedArticles_fn (filter (fun a => id a ≠ id article))
  else
    setSavedArticles_fn (fun prev => prev ++ [article]).

Definition isArticleSaved (snap : State) (articleId : ArticleId) : bool :=
  some_id articleId (savedArticles snap).

(** [articles.length - 1] is [-1] on the empty list, hence the
    comparison in [Z]. *)
Definition handleShowMore (snap : State) : P unit :=
  if bool_decide (viewMode snap = single) &&
     (Z.of_nat (singleIndex snap) <? Z.of_nat (length (articles snap)) - 1)
  then setSingleIndex_fn (fun prev => (prev + 1)%nat)
  else spawn (fetchArticles snap).

End Handlers.

(** *** What is rendered *)

Definition displayArticles (st : State) : list Article :=
  if decide (activeTab st = saved) then savedArticles st else articles st.

(** The props handed to one [ArticleCard]. *)
Record Card : Type := mkCard {
  card_article : option Article;
  card_isSaved : bool;
  card_viewMode : ViewMode
}.

Inductive Main : Type :=
| EmptySaved
| SingleView (card : option Card)
| FeedView (cards : list Card)
| CardsView (cards : list Card).

Inductive Screen : Type :=
| LoadingScreen
| ErrorScreen (msg : jsstring)
| AdminScreen
| AgentScreen
| MainScreen (savedCount : nat) (main : Main) (showMore : bool).

(** The position read by the single view of the saved tab:
    [singleIndex % displayArticles.length], evaluated only under the
    guard [displayArticles.length > 0]. *)
Definition single_position (st : State) : nat :=
  singleIndex st mod length (displayArticles st).

(** [isArticleSaved(x?.id)] *)
Definition isSaved_opt (st : State) (x : option Article) : bool :=
  match x with
  | Some a => isArticleSaved st (id a)
  | None => false
  end.

Definition card_of (st : State) (a : Article) : Card :=
  mkCard (Some a) (isArticleSaved st (id a)) cards.

Definition render_main (st : State) : Main :=
  if bool_decide (activeTab st = saved) && (length (savedArticles st) =? 0)%nat
  then EmptySaved
  else if decide (viewMode st = single) then
    SingleView
      (if (0 <? length (displayArticles st))%nat then
         let article :=
           if decide (activeTab st = saved)
           then displayArticles st !! single_position st
           else displayArticles st !! 0%nat in
         Some (mkCard article (isSaved_opt st article) single)
       else None)
  else if decide (viewMode st = feed) then
    FeedView (map (card_of st) (displayArticles st))
  else
    CardsView (map (card_of st) (displayArticles st)).

Definition render (st : State) : Screen :=
  if loading st then LoadingScreen
  else
    match error st with
    | Some msg =>
        if Js.truthy msg then ErrorScreen msg
        else
          if showAdmin st then AdminScreen
          else if showAgent st then AgentScreen
          else MainScreen (length (savedArticles st)) (render_main st)
                 (bool_decide (activeTab st = discover))
    | None =>
        if showAdmin st then AdminScreen
        else if showAgent st then AgentScreen
        else MainScreen (length (savedArticles st)) (render_main st)
               (bool_decide (activeTab st = discover))
    end.

(** *** The component in its environment: localStorage and the backend *)

(** The one key the shell uses in localStorage. *)
Definition STORAGE_KEY : jsstring := Js.lit "readrabbit_saved".

Record World : Type := mkWorld {
  state : State;
  localStorage : gmap jsstring jsstring;
  history : list Event
}.

(** What the user can do on the screens of the shell. *)
Inductive Action : Type :=
| Save (article : Article)
| Dismiss (articleId : ArticleId)
| ShowMore
| TryAgain
| SelectTab (t : Tab)
| SelectView (m : ViewMode)
| OpenAdmin
| AdminBack
| OpenAgent
| AgentBack
| ArticlesAdded.

Section Session.

Variable API_BASE : jsstring.
Variable backend : Backend Data.
(** [JSON.stringify] and [JSON.parse] on the saved collection; [parse]
    has no value where [JSON.parse] throws. *)
Variable stringify : list Article -> jsstring.
Variable parse : jsstring -> option (list Article).

(** A handler runs against the backend; it does not touch localStorage.
    A run that leaves the model (see [fetchArticles]) is kept up to that
    point: what it did to the state before is done. *)
Definition exec (p : P unit) (w : World) : World :=
  let r := run backend p (state w) (history w) in
  mkWorld (final r) (localStorage w) (events r).

(** The effect with dependency [savedArticles]:
    [localStorage.setItem('readrabbit_saved', JSON.stringify(savedArticles))] *)
Definition persist (w : World) : World :=
  mkWorld (state w)
    (<[STORAGE_KEY := stringify (savedArticles (state w))]> (localStorage w))
    (history w).

(** One user action and the effects its re-render triggers.  The
    handlers are those of the latest render, so their snapshot is the
    current state: the updates of one event are committed before the next
    event is dispatched.  [handleSave] always installs a new array, so the
    persisting effect runs after it; a changed [viewMode] gives a new
    [fetchArticles], whose effect calls it.  Which actions a screen offers
    is not modelled: every sequence of actions is a session. *)
Definition step (w : World) (a : Action) : World :=
  match a with
  | Save article => persist (exec (handleSave (state w) article) w)
  | Dismiss articleId => exec (handleDismiss API_BASE (state w) articleId) w
  | ShowMore => exec (handleShowMore API_BASE (state w)) w
  | TryAgain => exec (fetchArticles API_BASE (state w)) w
  | SelectTab t => exec (setActiveTab t) w
  | SelectView m =>
      let w1 := exec (setViewMode m) w in
      if decide (m = viewMode (state w)) then w1
      else exec (fetchArticles API_BASE (state w1)) w1
  | OpenAdmin => exec (setShowAdmin true) w
  | AdminBack =>
      exec (setShowAdmin false;; spawn (fetchArticles API_BASE (state w))) w
  | OpenAgent => exec (setShowAgent true) w
  | AgentBack =>
      exec (setShowAgent false;; spawn (fetchArticles API_BASE (state w))) w
  | ArticlesAdded => exec (fetchArticles API_BASE (state w)) w
  end.

Definition steps (w : World) (l : list Action) : World :=
  fold_left step l w.

(** The first effect of the mount:
    [const saved = localStorage.getItem(KEY); if (saved) setSavedArticles(JSON.parse(saved))].
    The outer [None] is a throwing [JSON.parse]; the inner one is no
    update. *)
Definition load (store : gmap jsstring jsstring)
    : option (option (list Article)) :=
  match store !! STORAGE_KEY with
  | Some text =>
      if Js.truthy text then
        match parse text with
        | Some l => Some (Some l)
        | None => None
        end
      else Some None
  | None => Some None
  end.

(** Mounting the component on a browser whose localStorage is [store]:
    the three effects run in order after the first render (load, persist
    with the [savedArticles] of that render, [fetchArticles]); when the
    load has set the saved articles, the re-render runs the persisting
    effect again. *)
Definition mount (store : gmap jsstring jsstring) : option World :=
  match load store with
  | None => None
  | Some loaded =>
      let w1 := persist (mkWorld initial store []) in
      let w2 :=
        match loaded with
        | Some l => persist (exec (setSavedArticles l) w1)
        | None => w1
        end in
      Some (exec (fetchArticles API_BASE initial) w2)
  end.

End Session.

End App.

(* ===================================================================== *)
(** ** The admin panel (components/AdminPage.jsx) *)
(* ===================================================================== *)

Module AdminPage.
Import Effects.

(** The manual form; [read_time] is [null] or a number. *)
Record ManualForm : Type := mkForm {
  title : jsstring;
  url : jsstring;
  source : jsstring;
  author : jsstring;
  summary : jsstring;
  topics : list jsstring;
  read_time : option Z
}.

Definition emptyArticle : ManualForm :=
  mkForm [] [] [] [] [] [] None.

Inductive AddMode : Type := ai | manual.

(** The JSON object of an answer, as far as the panel reads it;
    [detail] is taken to be a string when present. *)
Record Data : Type := mkData {
  detail : option jsstring;
  data_articles : option (list Article);
  total_articles : option Z
}.

Record State : Type := mkState {
  url_input : jsstring;
  loading : bool;
  preview : option Json;
  error : option jsstring;
  success : option jsstring;
  articles : list Article;
  stats : option Data;
  addMode : AddMode;
  manualForm : ManualForm
}.

Abbreviation P := (Prog State Data).

Definition setLoading (v : bool) : P unit :=
  setState (fun st =>
    mkState (url_input st) v (preview st) (error st) (success st)
      (articles st) (stats st) (addMode st) (manualForm st)).

Definition with_error (v : option jsstring) (st : State) : State :=
  mkState (url_input st) (loading st) (preview st) v (success st)
    (articles st) (stats st) (addMode st) (manualForm st).
Definition setError (v : option jsstring) : P unit :=
  setState (with_error v).

Definition with_success (v : option jsstring) (st : State) : State :=
  mkState (url_input st) (loading st) (preview st) (error st) v
    (articles st) (stats st) (addMode st) (manualForm st).
Definition setSuccess (v : option jsstring) : P unit :=
  setState (with_success v).

Definition setArticles (v : list Article) : P unit :=
  setState (fun st =>
    mkState (url_input st) (loading st) (preview st) (error st) (success st)
      v (stats st) (addMode st) (manualForm st)).

Definition setStats (v : option Data) : P unit :=
  setState (fun st =>
    mkState (url_input st) (loading st) (preview st) (error st) (success st)
      (articles st) v (addMode st) (manualForm st)).

Definition setManualForm (v : ManualForm) : P unit :=
  setState (fun st =>
    mkState (url_input st) (loading st) (preview st) (error st) (success st)
      (articles st) (stats st) (addMode st) v).

(** [!s.trim()] *)
Definition blank (s : jsstring) : bool := negb (Js.truthy (Js.trim s)).

(** [manualForm.read_time || null]: zero is falsy. *)
Definition read_time_or_null (r : option Z) : Json :=
  match r with
  | Some z => if (z =? 0) then JNull else JNumber z
  | None => JNull
  end.

(** [{ ...manualForm, topics: manualForm.topics,
       read_time: manualForm.read_time || null }] *)
Definition request_body (f : ManualForm) : Json :=
  JObject
    [ (Js.lit "title", JString (title f));
      (Js.lit "url", JString (url f));
      (Js.lit "source", JString (source f));
      (Js.lit "author", JString (author f));
      (Js.lit "summary", JString (summary f));
      (Js.lit "topics", JArray (map JString (topics f)));
      (Js.lit "read_time", read_time_or_null (read_time f)) ].

Section Handlers.

Variable API_BASE : jsstring.

Definition fetchStats : P unit :=
  try_catch
    (res ← fetch (mkRequest GET (API_BASE ++ Js.lit "/admin/stats") None);
     data ← json res;
     setStats (Some data))
    (fun err => console_error (Js.lit "Failed to fetch stats:") err).

Definition fetchArticles : P unit :=
  try_catch
    (res ← fetch (mkRequest GET (API_BASE ++ Js.lit "/articles?limit=100") None);
     data ← json res;
     setArticles (default [] (data_articles data)))
    (fun err => console_error (Js.lit "Failed to fetch articles:") err).

(** The request of the manual save; it is sent with the JSON content
    type. *)
Definition save_request (f : ManualForm) : Request :=
  mkRequest POST (API_BASE ++ Js.lit "/articles") (Some (request_body f)).

(** The guard returns before any effect; [fetchStats()] and
    [fetchArticles()] are called without [await]. *)
Definition handleManualSave (snap : State) : P unit :=
  if blank (title (manualForm snap)) || blank (url (manualForm snap)) then
    setError (Some (Js.lit "Title and URL are required"))
  else
    setLoading true;;
    setError None;;
    try_finally
      (try_catch
         (res ← fetch (save_request (manualForm snap));
          data ← json res;
          if negb (ok res) then
            Throw (mkError
                     (Js.or_else (detail data) (Js.lit "Failed to save article")))
          else
            setSuccess (Some (Js.lit "Added: " ++ title (manualForm snap)));;
            setManualForm emptyArticle;;
            spawn fetchStats;;
            spawn fetchArticles;;
            setTimeout (with_success None) 3000)
         (fun err => setError (Some (message err))))
      (setLoading false).

End Handlers.

End AdminPage.

(* ===================================================================== *)
(** ** The admin panel: the topics field, the refreshes and the delete *)
(* ===================================================================== *)

Module AdminActions.
Import Effects AdminPage.

(** The code unit of the comma. *)
Definition COMMA : N := 44.

(** [value.split(',')]: the pieces between the commas; a string without
    comma, the empty one included, is one piece. *)
Fixpoint split_comma (value : jsstring) : list jsstring :=
  match value with
  | [] => [[]]
  | c :: rest =>
      if (c =? COMMA)%N then [] :: split_comma rest
      else
        match split_comma rest with
        | piece :: pieces => (c :: piece) :: pieces
        | [] => [[c]]
        end
  end.

(** [topics.join(', ')] *)
Fixpoint join_topics (topics : list jsstring) : jsstring :=
  match topics with
  | [] => []
  | [t] => t
  | t :: rest => t ++ Js.lit ", " ++ join_topics rest
  end.

(** [value.split(',').map(t => t.trim()).filter(Boolean)] *)
Definition parse_topics (value : jsstring) : list jsstring :=
  filter (fun t => t ≠ []) (map Js.trim (split_comma value)).

(** The text shown in the topics input: [manualForm.topics.join(', ')]. *)
Definition topics_value (st : State) : jsstring :=
  join_topics (topics (manualForm st)).

(** The [onChange] of the topics input:
    [setManualForm({...manualForm, topics: ...})], on the form of the
    render. *)
Definition onTopicsChange (snap : State) (value : jsstring) : P unit :=
  setManualForm
    (mkForm (title (manualForm snap)) (url (manualForm snap))
       (source (manualForm snap)) (author (manualForm snap))
       (summary (manualForm snap)) (parse_topics value)
       (read_time (manualForm snap))).

(** The prompt of the delete: [`Delete "${articleTitle}"?`] *)
Definition delete_prompt (articleTitle : jsstring) : jsstring :=
  Js.lit "Delete " ++ [34%N] ++ articleTitle ++ [34%N] ++ Js.lit "?".

Section Handlers.

Variable API_BASE : jsstring.
(** [window.confirm]: what the user answers to a prompt. *)
Variable confirm : jsstring -> bool.

Definition delete_request (articleId : ArticleId) : Request :=
  mkRequest DELETE (API_BASE ++ Js.lit "/articles/" ++ id_text articleId) None.

(** The refreshes after the delete are called without [await]; the
    error state is set on failure and never cleared here. *)
Definition handleDelete (articleId : ArticleId) (articleTitle : jsstring)
    : P unit :=
  if negb (confirm (delete_prompt articleTitle)) then mret tt
  else
    try_catch
      (res ← fetch (delete_request articleId);
       if negb (ok res) then
         Throw (mkError (Js.lit "Failed to delete article"))
       else
         spawn (fetchStats API_BASE);;
         spawn (fetchArticles API_BASE))
      (fun err => setError (Some (message err))).

End Handlers.

End AdminActions.

(* ===================================================================== *)
(** ** The discovery agent: saving recommendations *)
(* ===================================================================== *)

Module DiscoverAgent.
Import Effects.

(** A recommendation: the url the panel keys it by, and the object as
    received, which is what is posted back. *)
Record Rec : Type := mkRec {
  rec_url : jsstring;
  rec_json : Json
}.

(** The JSON object of an answer, as far as the panel reads it;
    [detail] is taken to be a string when present. *)
Record Data : Type := mkData {
  detail : option jsstring;
  recommendations : option (list Rec)
}.

Inductive InputType : Type := article | podcast | tweet | text.

(** The [useState] cells of the panel, and a count of the calls of the
    parent's [onArticlesAdded], which is all the panel knows of them. *)
Record State : Type := mkState {
  inputType : InputType;
  content : jsstring;
  loading : bool;
  result : option Data;
  error : option jsstring;
  savingIds : gset jsstring;
  savedIds : gset jsstring;
  articlesAdded : nat
}.

Abbreviation P := (Prog State Data).

Definition setError (v : option jsstring) : P unit :=
  setState (fun st =>
    mkState (inputType st) (content st) (loading st) (result st) v
      (savingIds st) (savedIds st) (articlesAdded st)).

Definition setSavingIds_fn (f : gset jsstring -> gset jsstring) : P unit :=
  setState (fun st =>
    mkState (inputType st) (content st) (loading st) (result st) (error st)
      (f (savingIds st)) (savedIds st) (articlesAdded st)).

Definition setSavedIds_fn (f : gset jsstring -> gset jsstring) : P unit :=
  setState (fun st =>
    mkState (inputType st) (content st) (loading st) (result st) (error st)
      (savingIds st) (f (savedIds st)) (articlesAdded st)).

(** [onArticlesAdded()] *)
Definition call_onArticlesAdded : P unit :=
  setState (fun st =>
    mkState (inputType st) (content st) (loading st) (result st) (error st)
      (savingIds st) (savedIds st) (S (articlesAdded st))).

Section Handlers.

Variable API_BASE : jsstring.
(** Whether the parent passed the [onArticlesAdded] prop. *)
Variable onArticlesAdded : bool.

Definition save_request (rec : Rec) : Request :=
  mkRequest POST (API_BASE ++ Js.lit "/agent/save-recommendation")
    (Some (rec_json rec)).

(** The url is marked as being saved before the [try]; the [finally]
    removes the mark. *)
Definition handleSave (rec : Rec) : P unit :=
  setSavingIds_fn (fun prev => prev ∪ {[rec_url rec]});;
  try_finally
    (try_catch
       (res ← fetch (save_request rec);
        (if negb (ok res) then
           data ← json res;
           Throw (mkError (Js.or_else (detail data) (Js.lit "Failed to save")))
         else mret tt);;
        setSavedIds_fn (fun prev => prev ∪ {[rec_url rec]});;
        if onArticlesAdded then call_onArticlesAdded else mret tt)
       (fun err => setError (Some (message err))))
    (setSavingIds_fn (fun prev => prev ∖ {[rec_url rec]})).

(** [for (const rec of unsaved) { await handleSave(rec) }] *)
Fixpoint save_each (unsaved : list Rec) : P unit :=
  match unsaved with
  | [] => mret tt
  | rec :: rest => handleSave rec;; save_each rest
  end.

(** The recommendations not yet saved, by the [savedIds] of the render. *)
Definition unsaved_of (snap : State) (recs : list Rec) : list Rec :=
  filter (fun r => rec_url r ∉ savedIds snap) recs.

Definition handleSaveAll (snap : State) : P unit :=
  match result snap with
  | None => mret tt
  | Some data =>
      match recommendations data with
      | None => mret tt
      | Some recs => save_each (unsaved_of snap recs)
      end
  end.

End Handlers.

End DiscoverAgent.

(* ===================================================================== *)
(** ** The earlier shell (the App.jsx without tabs and view modes) *)
(* ===================================================================== *)

Module AppV1.
Import Effects.

Record State : Type := mkState {
  articles : list Article;
  loading : bool;
  error : option jsstring;
  shuffling : bool
}.

Definition initial : State := mkState [] true None false.

Abbreviation P := (Prog State App.Data).

Definition setArticles_fn (f : list Article -> list Article) : P unit :=
  setState (fun st =>
    mkState (f (articles st)) (loading st) (error st) (shuffling st)).
Definition setArticles (v : list Article) : P unit :=
  setArticles_fn (fun _ => v).
Definition setLoading (v : bool) : P unit :=
  setState (fun st => mkState (articles st) v (error st) (shuffling st)).
Definition setError (v : option jsstring) : P unit :=
  setState (fun st => mkState (articles st) (loading st) v (shuffling st)).
Definition setShuffling (v : bool) : P unit :=
  setState (fun st => mkState (articles st) (loading st) (error st) v).

Section Handlers.

Variable API_BASE : jsstring.

(** As in the later shell, an ok answer without [articles] is where the
    model stops. *)
Definition fetchArticles : P unit :=
  try_finally
    (try_catch
       (setShuffling true;;
        response ← fetch (App.get (App.random_url API_BASE 4));
        if negb (ok response)
        then Throw (mkError (Js.lit "Failed to fetch articles"))
        else
          data ← json response;
          match App.data_articles data with
          | Some l => setArticles l
          | None => OutOfModel
          end;;
          setError None)
       (fun err => setError (Some (message err))))
    (setLoading false;;
     setShuffling false).

Definition handleDismiss (articleId : ArticleId) : P unit :=
  try_catch
    (_ ← fetch (App.post (App.dismiss_url API_BASE articleId));
     response ← fetch (App.get (App.random_url API_BASE 1));
     data ← json response;
     match App.data_articles data with
     | None => Throw App.undefined_length
     | Some [] => mret tt
     | Some (first :: _) =>
         setArticles_fn
           (map (fun a => if has_id articleId a then first else a))
     end)
    (fun err => console_error (Js.lit "Failed to dismiss article:") err).

Definition handleShuffle : P unit := spawn fetchArticles.

End Handlers.

End AppV1.

(* ===================================================================== *)
(** ** Vocabulary of the properties *)
(* ===================================================================== *)

(** No two entries of the list have the same id. *)
Definition unique_ids (l : list Article) : Prop := NoDup (map id l).

(** The answers to the random-articles request that [fetchArticles]
    treats as a failure, with the message it keeps: a rejected fetch, a
    status that is not ok, an ok answer whose body is not JSON. *)
Inductive fetch_failure :
    Effects.FetchResult App.Data -> jsstring -> Prop :=
| network_failure (e : Effects.JsError) :
    fetch_failure (Effects.Rejected e) (Effects.message e)
| status_failure (r : Effects.Response App.Data) :
    Effects.ok r = false ->
    fetch_failure (Effects.Resolved r) (Js.lit "Failed to fetch articles")
| body_failure (r : Effects.Response App.Data) (e : Effects.JsError) :
    Effects.ok r = true ->
    Effects.json_body r = inl e ->
    fetch_failure (Effects.Resolved r) (Effects.message e).

(** The answers to the replacement request of a dismiss that end in its
    [catch], with the error it logs: a rejected fetch, a body that is not
    JSON, a JSON body without [articles]. *)
Inductive replacement_failure :
    Effects.FetchResult App.Data -> Effects.JsError -> Prop :=
| replacement_rejected (e : Effects.JsError) :
    replacement_failure (Effects.Rejected e) e
| replacement_unreadable (r : Effects.Response App.Data) (e : Effects.JsError) :
    Effects.json_body r = inl e ->
    replacement_failure (Effects.Resolved r) e
| replacement_missing (r : Effects.Response App.Data) (d : App.Data) :
    Effects.json_body r = inr d ->
    App.data_articles d = None ->
    replacement_failure (Effects.Resolved r) App.undefined_length.

(** The number of articles [fetchArticles] asks for in a view mode. *)
Definition count_of (m : App.ViewMode) : Z :=
  match m with App.single => 1 | App.feed => 8 | App.cards => 4 end.

(** The cards a main area renders. *)
Definition cards_of (m : App.Main) : list App.Card :=
  match m with
  | App.EmptySaved => []
  | App.SingleView (Some c) => [c]
  | App.SingleView None => []
  | App.FeedView cs => cs
  | App.CardsView cs => cs
  end.

(** No white space at the start. *)
Definition starts_clean (s : jsstring) : Prop :=
  match s with
  | [] => True
  | c :: _ => Js.is_white_space c = false
  end.

(** A topic as the topics field produces them: not empty, without white
    space at either end, without comma. *)
Definition clean_topic (t : jsstring) : Prop :=
  t ≠ [] /\ Js.trim t = t /\ AdminActions.COMMA ∉ t.

(** The answers to the POST of the manual form that end in its [catch],
    with the message shown: a rejected fetch, a body that is not JSON
    (the body is read before the status), a JSON body with a status that
    is not ok. *)
Inductive save_failure :
    Effects.FetchResult AdminPage.Data -> jsstring -> Prop :=
| save_rejected (e : Effects.JsError) :
    save_failure (Effects.Rejected e) (Effects.message e)
| save_unreadable (r : Effects.Response AdminPage.Data) (e : Effects.JsError) :
    Effects.json_body r = inl e ->
    save_failure (Effects.Resolved r) (Effects.message e)
| save_refused (r : Effects.Response AdminPage.Data) (d : AdminPage.Data) :
    Effects.json_body r = inr d ->
    Effects.ok r = false ->
    save_failure (Effects.Resolved r)
      (Js.or_else (AdminPage.detail d) (Js.lit "Failed to save article")).

(** What the earlier shell holds of a state of the later one. *)
Definition earlier (st : App.State) : AppV1.State :=
  AppV1.mkState (App.articles st) (App.loading st) (App.error st)
    (App.shuffling st).

(* ===================================================================== *)
(** ** Concrete inputs used by the examples *)
(* ===================================================================== *)

Module Samples.
Import Effects.

Definition api : jsstring := Js.lit "/api".

Definition sample_article (n : Z) : Article :=
  mkArticle (IdNum n) (Js.lit "A title") (Js.lit "https://example.org/a")
    (Js.lit "Example") (Js.lit "Someone") (Js.lit "About something")
    [Js.lit "reading"] (Some 5) (Js.lit "article").

(** A browser without network: every [fetch] rejects. *)
Definition offline : Backend App.Data :=
  fun _ _ => Rejected (mkError (Js.lit "Failed to fetch")).

(** A backend that answers every request with 200 and the articles [l]. *)
Definition serving (l : list Article) : Backend App.Data :=
  fun _ _ => Resolved (mkResponse true (inr (App.mkData (Some l)))).

(** A stand-in for [JSON.stringify]: the ids of the collection. *)
Definition ids_text (l : list Article) : jsstring :=
  flat_map (fun a => id_text (id a) ++ Js.lit ";") l.

(** A stand-in for [JSON.parse] that reads one stored text. *)
Definition parse_one (text : jsstring) : option (list Article) :=
  if decide (text = Js.lit "1;") then Some [sample_article 1] else None.

Definition stored_one : gmap jsstring jsstring :=
  {[ App.STORAGE_KEY := Js.lit "1;" ]}.

(** The world after mounting on [stored_one] without network. *)
Definition mounted_offline : App.World :=
  App.mkWorld
    (App.mkState [] [sample_article 1] false (Some (Js.lit "Failed to fetch"))
       false App.discover App.cards 0 false false)
    (<[App.STORAGE_KEY := Js.lit "1;"]>
       (<[App.STORAGE_KEY := []]> stored_one))
    [Requested (App.get (App.random_url api 4))].

(** A shell showing two cards on the discover tab. *)
Definition two_cards : App.State :=
  App.mkState [sample_article 1; sample_article 2] [] false None
    false App.discover App.cards 0 false false.

(** The shell on the saved tab in the single view, two articles saved,
    after five steps of navigation. *)
Definition saved_single : App.State :=
  App.mkState [] [sample_article 1; sample_article 2] false None
    false App.saved App.single 5 false false.

(** A world with nothing saved and nothing stored. *)
Definition fresh : App.World := App.mkWorld two_cards ∅ [].

(** The admin panel with a manual form whose title is white space. *)
Definition blank_title : AdminPage.State :=
  AdminPage.mkState [] false None None None [] None AdminPage.manual
    (AdminPage.mkForm [32%N; 160%N; 9%N] (Js.lit "https://example.org/a")
       [] [] [] [] None).

(** The admin panel with a filled manual form. *)
Definition filled_form : AdminPage.State :=
  AdminPage.mkState [] false None None None [] None AdminPage.manual
    (AdminPage.mkForm (Js.lit " A title ") (Js.lit "https://example.org/a")
       [] [] [] [Js.lit "reading"] (Some 0)).

(** The admin panel without network. *)
Definition admin_offline : Backend AdminPage.Data :=
  fun _ _ => Rejected (mkError (Js.lit "Failed to fetch")).

(** Two saves, and a longer session. *)
Definition two_saves : list App.Action :=
  [App.Save (sample_article 2); App.Save (sample_article 1)].
Definition session : list App.Action :=
  [App.Save (sample_article 2); App.Dismiss (IdNum 1);
   App.SelectView App.feed; App.Save (sample_article 1)].

Definition three_articles : list Article :=
  [sample_article 1; sample_article 2; sample_article 3].

End Samples.

Module MoreSamples.
Import Effects Samples.

(** Saving an article and taking it back. *)
Definition save_and_undo : list App.Action :=
  [App.Save (sample_article 2); App.Save (sample_article 2)].

(** The shell in the single view, showing one article. *)
Definition one_single : App.State :=
  App.mkState [sample_article 1] [] false None false App.discover App.single
    0 false false.

(** A backend that accepts every POST and has lost the articles: its
    other answers are error bodies. *)
Definition dismiss_only : Backend App.Data :=
  fun _ r =>
    match method r with
    | POST => Resolved (mkResponse true (inr (App.mkData None)))
    | _ => Resolved (mkResponse false (inr (App.mkData None)))
    end.

(** The card of a saved article in the cards view. *)
Definition saved_cards : App.State :=
  App.mkState [] [sample_article 1; sample_article 2] false None
    false App.saved App.cards 0 false false.
Definition saved_card : App.Card :=
  App.mkCard (Some (sample_article 2)) true App.cards.

Definition two_topics : list jsstring := [Js.lit "AI"; Js.lit "Deep work"].

(** An admin backend that refuses every request, with a reason. *)
Definition admin_refusing : Backend AdminPage.Data :=
  fun _ _ =>
    Resolved
      (mkResponse false
         (inr (AdminPage.mkData (Some (Js.lit "Article already exists"))
                 None None))).

(** An admin backend that accepts every request and lists one article. *)
Definition admin_accepting : Backend AdminPage.Data :=
  fun _ _ =>
    Resolved
      (mkResponse true
         (inr (AdminPage.mkData None (Some [sample_article 1]) (Some 1)))).

(** A backend in trouble: every request is answered, with status 500
    and an error body. *)
Definition failing_500 : Backend App.Data :=
  fun _ _ => Resolved (mkResponse false (inr (App.mkData None))).

End MoreSamples.

(* ===================================================================== *)
(** ** Properties *)
(* ===================================================================== *)

Import Effects.

Global Arguments Js.lit : simpl never.
Global Arguments Js.of_Z : simpl never.
Global Arguments App.fetchArticles : simpl never.
Global Arguments App.handleDismiss : simpl never.
Global Arguments App.handleShowMore : simpl never.
Global Arguments App.handleSave : simpl never.

(** Unfolds the monad of handlers down to [run]. *)
Ltac unfold_prog :=
  unfold mbind, mret, Prog_bind, Prog_ret, fetch, json, setState,
    console_error, setTimeout, spawn in *.

Section SomeId.

Lemma some_id_true (i : ArticleId) (l : list Article) :
  some_id i l = true <-> i ∈ map id l.
Proof.
  unfold some_id, has_id. rewrite existsb_exists. split.
  - intros (a & Ha & Hi). apply bool_decide_eq_true in Hi. subst i.
    apply list_elem_of_fmap. exists a. split; [done|]. by apply list_elem_of_In.
  - intros Hi. apply list_elem_of_fmap in Hi as (a & -> & Ha).
    exists a. split; [by apply list_elem_of_In|]. by apply bool_decide_eq_true.
Qed.

Lemma some_id_false (i : ArticleId) (l : list Article) :
  some_id i l = false <-> i ∉ map id l.
Proof.
  rewrite <- some_id_true. destruct (some_id i l); split; try done.
Qed.

Lemma filter_absent (i : ArticleId) (l : list Article) :
  i ∉ map id l -> filter (fun a => id a ≠ i) l = l.
Proof.
  induction l as [|a l IH]; [done|]. cbn [map]. intros H.
  apply not_elem_of_cons in H as [Hne Hl].
  rewrite filter_cons_True by congruence. by rewrite IH.
Qed.

Lemma filter_removes (i : ArticleId) (l : list Article) :
  i ∉ map id (filter (fun a => id a ≠ i) l).
Proof.
  intros H. apply list_elem_of_fmap in H as (a & -> & Ha).
  apply list_elem_of_filter in Ha as [Hne _]. by apply Hne.
Qed.

Lemma filter_keeps_unique (i : ArticleId) (l : list Article) :
  unique_ids l -> unique_ids (filter (fun a => id a ≠ i) l).
Proof.
  unfold unique_ids. induction l as [|a l IH]; [done|]. cbn [map]. intros H.
  apply NoDup_cons in H as [Ha Hl].
  destruct (decide (id a = i)) as [Heq|Hne].
  - rewrite filter_cons_False by tauto. auto.
  - rewrite filter_cons_True by done. cbn [map]. apply NoDup_cons.
    split; [|auto].
    intros Hin. apply Ha.
    apply list_elem_of_fmap in Hin as (b & Hb & Hin).
    apply list_elem_of_filter in Hin as [_ Hin].
    apply list_elem_of_fmap. by exists b.
Qed.

Lemma append_keeps_unique (a : Article) (l : list Article) :
  unique_ids l -> id a ∉ map id l -> unique_ids (l ++ [a]).
Proof.
  unfold unique_ids. intros Hl Ha. rewrite map_app. cbn.
  apply NoDup_app. split; [done|]. split.
  - intros i Hi Hi'. apply list_elem_of_singleton in Hi'. by subst.
  - apply NoDup_singleton.
Qed.

End SomeId.

Section ShellFacts.

Import App.

Variable API_BASE : jsstring.
Variable backend : Backend Data.
Variable stringify : list Article -> jsstring.

Lemma fetchArticles_frame (snap st : State) (h : list Event) :
  savedArticles (final (run backend (fetchArticles API_BASE snap) st h)) =
  savedArticles st.
Proof.
  unfold fetchArticles, setShuffling, setArticles, setArticles_fn,
    setSingleIndex, setSingleIndex_fn, setError, setLoading.
  unfold_prog. cbn.
  destruct (backend h _) as [e|[[] [e'|[[l|]]]]]; cbn; reflexivity.
Qed.

Lemma handleDismiss_frame (snap st : State) (i : ArticleId) (h : list Event) :
  savedArticles (final (run backend (handleDismiss API_BASE snap i) st h)) =
  savedArticles st.
Proof.
  unfold handleDismiss, setArticles, setArticles_fn.
  unfold_prog. cbn.
  destruct (backend h _) as [e|r1]; cbn; [reflexivity|].
  destruct (decide (viewMode snap = single)) as [Hs|Hs]; cbn.
  - destruct (backend _ _) as [e|[o [e'|[[l|]]]]]; cbn; try reflexivity.
    destruct l; reflexivity.
  - destruct (backend _ _) as [e|[o [e'|[[[|first l]|]]]]]; cbn; reflexivity.
Qed.

Lemma handleShowMore_frame (snap st : State) (h : list Event) :
  savedArticles (final (run backend (handleShowMore API_BASE snap) st h)) =
  savedArticles st.
Proof.
  unfold handleShowMore. destruct (_ && _).
  - reflexivity.
  - unfold spawn. cbn. apply fetchArticles_frame.
Qed.

Lemma step_Save_saved (w : World) (a : Article) :
  savedArticles (state (step API_BASE backend stringify w (Save a))) =
  if isArticleSaved (state w) (id a)
  then filter (fun b => id b ≠ id a) (savedArticles (state w))
  else savedArticles (state w) ++ [a].
Proof.
  unfold isArticleSaved. cbn. unfold handleSave.
  destruct (some_id _ _); reflexivity.
Qed.

Lemma step_other_saved (w : World) (act : Action) :
  (forall a, act ≠ Save a) ->
  savedArticles (state (step API_BASE backend stringify w act)) =
  savedArticles (state w).
Proof.
  intros Hact. destruct act; cbn; try reflexivity.
  - by destruct (Hact article).
  - apply handleDismiss_frame.
  - apply handleShowMore_frame.
  - apply fetchArticles_frame.
  - destruct (decide _); cbn; [reflexivity|]. by rewrite fetchArticles_frame.
  - unfold_prog. cbn. by rewrite fetchArticles_frame.
  - unfold_prog. cbn. by rewrite fetchArticles_frame.
  - apply fetchArticles_frame.
Qed.

End ShellFacts.

Section ShellSession.

Import App.

Variable API_BASE : jsstring.
Variable backend : Backend Data.
Variable stringify : list Article -> jsstring.
Variable parse : jsstring -> option (list Article).

Local Abbreviation step := (step API_BASE backend stringify).
Local Abbreviation steps := (steps API_BASE backend stringify).
Local Abbreviation mount := (mount API_BASE backend stringify parse).

Lemma steps_snoc (w : World) (acts : list Action) (act : Action) :
  steps w (acts ++ [act]) = step (steps w acts) act.
Proof. unfold App.steps. by rewrite fold_left_app. Qed.

Lemma step_keeps_unique (w : World) (act : Action) :
  unique_ids (savedArticles (state w)) ->
  unique_ids (savedArticles (state (step w act))).
Proof.
  intros Hw. destruct act;
    try (rewrite step_other_saved by discriminate; exact Hw).
  rewrite step_Save_saved. unfold isArticleSaved.
  destruct (some_id _ _) eqn:Hsome.
  - by apply filter_keeps_unique.
  - apply append_keeps_unique; [done|]. by apply some_id_false.
Qed.

Lemma step_storage (w : World) (act : Action) :
  localStorage (step w act) =
  match act with
  | Save _ =>
      <[STORAGE_KEY := stringify (savedArticles (state (step w act)))]>
        (localStorage w)
  | _ => localStorage w
  end.
Proof.
  destruct act; try reflexivity.
  cbn. by destruct (decide _).
Qed.

(** What the mount leaves: the loaded collection (or the empty one) in
    the state, and its serialization under the key. *)
Lemma mount_result (store : gmap jsstring jsstring) (w : World) :
  mount store = Some w ->
  exists loaded,
    load parse store = Some loaded /\
    savedArticles (state w) = default [] loaded /\
    localStorage w =
      match loaded with
      | Some l =>
          <[STORAGE_KEY := stringify l]>
            (<[STORAGE_KEY := stringify []]> store)
      | None => <[STORAGE_KEY := stringify []]> store
      end.
Proof.
  unfold App.mount. destruct (load parse store) as [loaded|]; [|done].
  intros [= <-]. exists loaded. split; [done|].
  unfold exec. cbn [state localStorage].
  rewrite fetchArticles_frame. by destruct loaded.
Qed.

(** C1. The saved set never holds two entries with the same id: from a
    localStorage whose saved collection (if any) has unique ids, the
    collection is unique after the mount and after every sequence of user
    actions; and saving an article whose id is already present inserts
    nothing, it only filters that id out. *)
Theorem saved_ids_unique (store : gmap jsstring jsstring) (w : World)
    (acts : list Action) :
  mount store = Some w ->
  (forall text l,
     store !! STORAGE_KEY = Some text -> parse text = Some l -> unique_ids l) ->
  unique_ids (savedArticles (state (steps w acts))) /\
  (forall article,
     isArticleSaved (state (steps w acts)) (id article) = true ->
     savedArticles (state (step (steps w acts) (Save article))) =
     filter (fun a => id a ≠ id article)
       (savedArticles (state (steps w acts)))).
Proof.
  intros Hmount Hstore.
  assert (Hinit : unique_ids (savedArticles (state w))).
  { destruct (mount_result _ _ Hmount) as (loaded & Hload & -> & _).
    destruct loaded as [l|]; [|apply NoDup_nil_2].
    unfold load in Hload.
    destruct (store !! STORAGE_KEY) as [text|] eqn:Htext; [|done].
    destruct (Js.truthy text); [|done].
    destruct (parse text) as [l'|] eqn:Hparse; [|done].
    injection Hload as ->. by eapply Hstore. }
  split.
  - induction acts as [|act acts IH] using rev_ind; [done|].
    rewrite steps_snoc. by apply step_keeps_unique.
  - intros article Hsaved. rewrite step_Save_saved. by rewrite Hsaved.
Qed.

(** C5. The text stored under 'readrabbit_saved' is the serialization
    of the current saved collection after the mount (the initial load)
    and after every sequence of user actions, insertions and removals by
    handleSave among them; no other key of localStorage is written. *)
Theorem storage_follows_saved (store : gmap jsstring jsstring) (w : World)
    (acts : list Action) :
  mount store = Some w ->
  localStorage (steps w acts) !! STORAGE_KEY =
    Some (stringify (savedArticles (state (steps w acts)))) /\
  (forall k, k ≠ STORAGE_KEY -> localStorage (steps w acts) !! k = store !! k).
Proof.
  intros Hmount.
  induction acts as [|act acts [IHkey IHother]] using rev_ind.
  - destruct (mount_result _ _ Hmount) as (loaded & _ & Hsaved & Hstorage).
    cbn. rewrite Hsaved, Hstorage. destruct loaded as [l|]; cbn; split.
    + apply lookup_insert_eq.
    + intros k Hk. by rewrite !lookup_insert_ne.
    + apply lookup_insert_eq.
    + intros k Hk. by rewrite lookup_insert_ne.
  - rewrite steps_snoc, step_storage. destruct act;
      try (rewrite step_other_saved by discriminate; by split).
    split; [apply lookup_insert_eq|].
    intros k Hk. rewrite lookup_insert_ne by done. by apply IHother.
Qed.

Lemma saves_append (w : World) (l : list Article) :
  unique_ids (savedArticles (state w) ++ l) ->
  savedArticles (state (steps w (map Save l))) = savedArticles (state w) ++ l.
Proof.
  revert w. induction l as [|a l IH]; intros w Hu.
  - cbn. by rewrite app_nil_r.
  - cbn [map]. change (steps w (Save a :: map Save l))
      with (steps (step w (Save a)) (map Save l)).
    assert (Hstep : savedArticles (state (step w (Save a))) =
                    savedArticles (state w) ++ [a]).
    { rewrite step_Save_saved. unfold isArticleSaved.
      destruct (some_id _ _) eqn:Hsome; [|done].
      apply some_id_true in Hsome. unfold unique_ids in Hu.
      rewrite map_app in Hu. apply NoDup_app in Hu as (_ & Hdisj & _).
      destruct (Hdisj _ Hsome). cbn. left. }
    rewrite IH; rewrite Hstep, <- app_assoc; done.
Qed.

Lemma step_retains (w : World) (act : Action) (a : Article) :
  a ∈ savedArticles (state w) ->
  (forall a', act = Save a' -> id a' ≠ id a) ->
  a ∈ savedArticles (state (step w act)).
Proof.
  intros Ha Hact. destruct act;
    try (rewrite step_other_saved by discriminate; exact Ha).
  rewrite step_Save_saved. destruct (isArticleSaved _ _).
  - apply list_elem_of_filter. split; [|done].
    intros Heq. by apply (Hact article).
  - apply elem_of_app. by left.
Qed.

(** C7. The saved set has no size bound: saving the articles of any list
    with pairwise distinct ids, one after the other, from the empty saved
    set keeps all of them, in order; and afterwards no action drops an
    entry, except saving an article with that entry's id again. *)
Theorem saved_set_unbounded (w : World) (l : list Article) :
  savedArticles (state w) = [] ->
  unique_ids l ->
  savedArticles (state (steps w (map Save l))) = l /\
  length (savedArticles (state (steps w (map Save l)))) = length l /\
  (forall acts a,
     a ∈ l ->
     (forall a', Save a' ∈ acts -> id a' ≠ id a) ->
     a ∈ savedArticles (state (steps (steps w (map Save l)) acts))).
Proof.
  intros Hempty Hu.
  assert (Hall : savedArticles (state (steps w (map Save l))) = l).
  { rewrite saves_append; rewrite Hempty; done. }
  split; [done|]. split; [by rewrite Hall|].
  intros acts a Ha. induction acts as [|act acts IH] using rev_ind; intros Hacts.
  - cbn. by rewrite Hall.
  - rewrite steps_snoc. apply step_retains.
    + apply IH. intros a' Ha'. apply Hacts, elem_of_app. by left.
    + intros a' ->. apply Hacts, elem_of_app. right. by apply list_elem_of_singleton.
Qed.

Lemma some_id_toggled (a : Article) (l : list Article) (i : ArticleId) :
  some_id (id a) l = true ->
  some_id i (filter (fun b => id b ≠ id a) l ++ [a]) = some_id i l.
Proof.
  intros Ha. apply eq_true_iff_eq.
  rewrite !some_id_true, map_app, elem_of_app. cbn.
  rewrite list_elem_of_singleton. split.
  - intros [Hi| ->]; [|by apply some_id_true].
    apply list_elem_of_fmap in Hi as (b & -> & Hb).
    apply list_elem_of_filter in Hb as [_ Hb].
    apply list_elem_of_fmap. by exists b.
  - intros Hi. destruct (decide (i = id a)) as [->|Hne]; [by right|left].
    apply list_elem_of_fmap in Hi as (b & -> & Hb).
    apply list_elem_of_fmap. exists b. split; [done|].
    apply list_elem_of_filter. by split.
Qed.

(** C8. Saving is a toggle, and saving the same article twice restores
    membership: when the id is absent, the first handleSave appends the
    article and the second removes every entry with that id, which gives
    the original list back; when the id is present, the first removes the
    entries with that id and the second appends the article, so every id
    is saved afterwards exactly when it was before. *)
Theorem save_twice (w : World) (article : Article) :
  let w1 := step w (Save article) in
  let w2 := step w1 (Save article) in
  if isArticleSaved (state w) (id article) then
    savedArticles (state w1) =
      filter (fun a => id a ≠ id article) (savedArticles (state w)) /\
    isArticleSaved (state w1) (id article) = false /\
    savedArticles (state w2) = savedArticles (state w1) ++ [article] /\
    (forall i, isArticleSaved (state w2) i = isArticleSaved (state w) i)
  else
    savedArticles (state w1) = savedArticles (state w) ++ [article] /\
    isArticleSaved (state w1) (id article) = true /\
    savedArticles (state w2) = savedArticles (state w).
Proof.
  intros w1 w2.
  assert (H1 := step_Save_saved API_BASE backend stringify w article).
  assert (H2 := step_Save_saved API_BASE backend stringify w1 article).
  fold w1 in H1. fold w2 in H2.
  destruct (isArticleSaved (state w) (id article)) eqn:Hsaved.
  - assert (Hgone : isArticleSaved (state w1) (id article) = false).
    { unfold isArticleSaved. rewrite H1. apply some_id_false, filter_removes. }
    rewrite Hgone in H2. repeat split; try done.
    intros i. unfold isArticleSaved in *. rewrite H2, H1.
    by apply some_id_toggled.
  - assert (Hthere : isArticleSaved (state w1) (id article) = true).
    { unfold isArticleSaved. rewrite H1. apply some_id_true.
      rewrite map_app. apply elem_of_app. right. cbn. left. }
    rewrite Hthere in H2. repeat split; try done.
    rewrite H2, H1. rewrite filter_app.
    rewrite filter_absent by (by apply some_id_false).
    rewrite filter_cons_False by tauto. by rewrite filter_nil, app_nil_r.
Qed.

End ShellSession.

Section ShellHandlers.

Import App.

Variable API_BASE : jsstring.
Variable backend : Backend Data.

Lemma requests_snoc_request (h : list Event) (r : Request) :
  requests (h ++ [Requested r]) = requests h ++ [r].
Proof. unfold requests. by rewrite omap_app. Qed.

Lemma requests_snoc_logged (h : list Event) (l : jsstring) (e : JsError) :
  requests (h ++ [Logged l e]) = requests h.
Proof. unfold requests. rewrite omap_app. cbn. apply app_nil_r. Qed.

(** Replacing the entries with id [x] by [first] in a list with unique
    ids, when no other entry has the id of [first]. *)
Lemma replace_keeps_unique (x : ArticleId) (first : Article)
    (l : list Article) :
  unique_ids l ->
  (forall a, a ∈ l -> id a ≠ x -> id a ≠ id first) ->
  unique_ids (map (fun a => if has_id x a then first else a) l).
Proof.
  unfold unique_ids, has_id.
  induction l as [|a l IH]; intros Hu Hfresh; [done|].
  cbn [map] in *. apply NoDup_cons in Hu as [Ha Hl].
  assert (Hfresh' : forall b, b ∈ l -> id b ≠ x -> id b ≠ id first).
  { intros b Hb. apply Hfresh. by right. }
  apply NoDup_cons. split; [|by apply IH].
  intros Hin. apply list_elem_of_fmap in Hin as (c & Hc & Hin).
  apply list_elem_of_fmap in Hin as (b & -> & Hb).
  assert (Hab : id a ≠ id b).
  { intros Heq. apply Ha. apply list_elem_of_fmap. by exists b. }
  destruct (bool_decide (id a = x)) eqn:Hax;
    destruct (bool_decide (id b = x)) eqn:Hbx;
    try apply bool_decide_eq_true in Hax;
    try apply bool_decide_eq_true in Hbx;
    try apply bool_decide_eq_false in Hax;
    try apply bool_decide_eq_false in Hbx.
  - congruence.
  - by apply (Hfresh' b).
  - apply (Hfresh a); [left|done|done].
  - done.
Qed.

(** C3 (as amended). Dismiss in the cards and feed modes, when the
    dismiss POST resolves and the replacement fetch answers with the
    articles [l].  If [l] is empty the state is unchanged.  Otherwise the
    articles list keeps its length, every position whose entry has the
    dismissed id now holds the first fetched article, whole, every other
    position holds the entry it held, and no other part of the state
    changes.  The articles list is what the discover tab displays, so
    there the displayed list is replaced in place; on the saved tab the
    displayed list is the saved set, which stays as it was, the dismissed
    entry included. *)
Theorem dismiss_replaces_in_place (st : State) (articleId : ArticleId)
    (h : list Event) (r1 : Response Data) (ok2 : bool) (l : list Article) :
  viewMode st ≠ single ->
  backend h (post (dismiss_url API_BASE articleId)) = Resolved r1 ->
  backend (h ++ [Requested (post (dismiss_url API_BASE articleId))])
    (get (random_url API_BASE 1)) =
    Resolved (mkResponse ok2 (inr (mkData (Some l)))) ->
  let st' := final (run backend (handleDismiss API_BASE st articleId) st h) in
  match l with
  | [] => st' = st
  | first :: _ =>
      length (articles st') = length (articles st) /\
      (forall i a,
         articles st !! i = Some a ->
         articles st' !! i =
           Some (if decide (id a = articleId) then first else a)) /\
      st' = mkState (articles st') (savedArticles st) (loading st) (error st)
              (shuffling st) (activeTab st) (viewMode st) (singleIndex st)
              (showAdmin st) (showAgent st) /\
      (activeTab st = discover ->
       length (displayArticles st') = length (displayArticles st) /\
       forall i a,
         displayArticles st !! i = Some a ->
         displayArticles st' !! i =
           Some (if decide (id a = articleId) then first else a)) /\
      (activeTab st = saved -> displayArticles st' = displayArticles st)
  end.
Proof.
  intros Hmode Hpost Hget st'. subst st'.
  unfold handleDismiss, setArticles_fn. unfold_prog. cbn.
  rewrite Hpost. cbn.
  destruct (decide (viewMode st = single)) as [Hs|_]; [done|]. cbn.
  rewrite Hget. cbn.
  destruct l as [|first rest]; cbn; [by destruct st|].
  assert (Hpoint : forall i a,
            articles st !! i = Some a ->
            map (fun a => if has_id articleId a then first else a)
              (articles st) !! i =
            Some (if decide (id a = articleId) then first else a)).
  { intros i a Hi.
    etrans; [apply (list_lookup_fmap
                      (fun a => if has_id articleId a then first else a))|].
    rewrite Hi. cbn. unfold has_id.
    by destruct (decide (id a = articleId));
      [rewrite bool_decide_eq_true_2|rewrite bool_decide_eq_false_2]. }
  split; [apply length_map|]. split; [exact Hpoint|]. split; [done|].
  unfold displayArticles. cbn. split.
  - intros Htab. rewrite Htab.
    destruct (decide (discover = saved)) as [|_]; [done|].
    split; [apply length_map|exact Hpoint].
  - intros Htab. rewrite Htab.
    by destruct (decide (saved = saved)).
Qed.

(** C2 (as amended). Dismiss keeps the ids of the displayed list distinct
    when the fetched articles allow it.  On the saved tab the displayed
    list is the saved set, which a dismiss does not change.  On the
    discover tab it is the articles list: in the cards and feed modes the
    ids stay distinct when no remaining entry has the id of the
    replacement; in the single mode, where the fetched list replaces the
    whole list, when the fetched list has distinct ids.  And the state,
    the displayed list with it, is exactly as before unless the dismiss
    POST resolved and the replacement answer carried at least one
    article. *)
Theorem dismiss_keeps_unique_ids (st : State) (articleId : ArticleId)
    (h : list Event) :
  unique_ids (displayArticles st) ->
  (forall r1 ok2 l,
     activeTab st = discover ->
     backend h (post (dismiss_url API_BASE articleId)) = Resolved r1 ->
     backend (h ++ [Requested (post (dismiss_url API_BASE articleId))])
       (get (random_url API_BASE 1)) =
       Resolved (mkResponse ok2 (inr (mkData (Some l)))) ->
     if decide (viewMode st = single) then unique_ids l
     else forall first a,
            head l = Some first -> a ∈ displayArticles st ->
            id a ≠ articleId -> id a ≠ id first) ->
  let st' := final (run backend (handleDismiss API_BASE st articleId) st h) in
  unique_ids (displayArticles st') /\
  (st' = st \/
   exists r1 ok2 first rest,
     backend h (post (dismiss_url API_BASE articleId)) = Resolved r1 /\
     backend (h ++ [Requested (post (dismiss_url API_BASE articleId))])
       (get (random_url API_BASE 1)) =
       Resolved (mkResponse ok2 (inr (mkData (Some (first :: rest)))))).
Proof.
  intros Hu Hfetched st'. subst st'.
  unfold handleDismiss, setArticles, setArticles_fn. unfold_prog. cbn.
  destruct (backend h _) as [e|r1] eqn:Hpost; cbn; [by split; [|left]|].
  assert (Hdisplay : forall l',
            displayArticles
              (mkState l' (savedArticles st) (loading st) (error st)
                 (shuffling st) (activeTab st) (viewMode st) (singleIndex st)
                 (showAdmin st) (showAgent st)) =
            if decide (activeTab st = saved) then savedArticles st else l').
  { intros l'. reflexivity. }
  assert (Htabs : activeTab st ≠ saved -> activeTab st = discover).
  { by destruct (activeTab st). }
  destruct (decide (viewMode st = single)) as [Hs|Hs]; cbn.
  - destruct (backend (h ++ _) _) as [e|[o [e'|[[l|]]]]] eqn:Hget;
      cbn; try (by split; [|left]).
    destruct l as [|first rest]; cbn; [by split; [|left]|].
    split; [|right; by exists r1, o, first, rest].
    rewrite Hdisplay. unfold displayArticles in Hu.
    destruct (decide (activeTab st = saved)) as [Htab|Htab]; [done|].
    specialize (Hfetched r1 o (first :: rest) (Htabs Htab) eq_refl eq_refl).
    by destruct (decide (viewMode st = single)).
  - destruct (backend (h ++ _) _) as [e|[o [e'|[[[|first rest]|]]]]] eqn:Hget;
      cbn; try (by split; [|left]).
    split; [|right; by exists r1, o, first, rest].
    rewrite Hdisplay.
    destruct (decide (activeTab st = saved)) as [Htab|Htab].
    { unfold displayArticles in Hu.
      by destruct (decide (activeTab st = saved)). }
    specialize (Hfetched r1 o (first :: rest) (Htabs Htab) eq_refl eq_refl).
    destruct (decide (viewMode st = single)); [done|].
    assert (Hd : displayArticles st = articles st).
    { unfold displayArticles. by destruct (decide (activeTab st = saved)). }
    rewrite Hd in Hu, Hfetched.
    apply replace_keeps_unique; [done|].
    intros a Ha Hne. by apply Hfetched.
Qed.

(** C6. Dismiss first issues the POST to /articles/{id}/dismiss and only
    then the GET of one random article; the GET is issued exactly when the
    POST did not reject, and nothing else is requested. *)
Theorem dismiss_request_order (st : State) (articleId : ArticleId)
    (h : list Event) :
  requests (events (run backend (handleDismiss API_BASE st articleId) st h)) =
  requests h ++
  mkRequest POST
    (API_BASE ++ Js.lit "/articles/" ++ id_text articleId ++ Js.lit "/dismiss")
    None ::
  match backend h
          (mkRequest POST
             (API_BASE ++ Js.lit "/articles/" ++ id_text articleId ++
              Js.lit "/dismiss") None)
  with
  | Rejected _ => []
  | Resolved _ =>
      [mkRequest GET (API_BASE ++ Js.lit "/articles/random?count=1") None]
  end.
Proof.
  unfold handleDismiss, setArticles, setArticles_fn. unfold_prog. cbn.
  change (post (dismiss_url API_BASE articleId)) with
    (mkRequest POST
       (API_BASE ++ Js.lit "/articles/" ++ id_text articleId ++
        Js.lit "/dismiss") None).
  change (get (random_url API_BASE 1)) with
    (mkRequest GET (API_BASE ++ Js.lit "/articles/random?count=1") None).
  destruct (backend h _) as [e|r1]; cbn.
  - by rewrite requests_snoc_logged, requests_snoc_request.
  - destruct (decide (viewMode st = single)) as [Hs|Hs]; cbn.
    + destruct (backend _ _) as [e|[o [e'|[[l|]]]]]; cbn;
        try destruct l; cbn;
        rewrite ?requests_snoc_logged, !requests_snoc_request, <- app_assoc;
        done.
    + destruct (backend _ _) as [e|[o [e'|[[[|first l]|]]]]]; cbn;
        rewrite ?requests_snoc_logged, !requests_snoc_request, <- app_assoc;
        done.
Qed.

(** C4 (as amended). A failure of the random-articles fetch (rejected
    fetch, status not ok, body that is not JSON) ends, after that one
    request and no other, with the message in the error state, loading and
    shuffling off and the list untouched; the error screen with its Try
    Again button is what renders, provided the message is not empty.
    A dismiss never shows a failure: whatever the backend answers, the
    error and loading states are as before.  When the dismiss request is
    rejected, the state is unchanged, the error is logged to the console
    and nothing more is requested.  A status that is not ok on the
    dismiss POST is not taken for a failure: the replacement is requested
    as after any other answer, and the console is written only when that
    replacement cannot be had. *)
Theorem failures_surface (st : State) (articleId : ArticleId)
    (h : list Event) :
  let random :=
    get (random_url API_BASE
           match viewMode st with single => 1 | feed => 8 | cards => 4 end) in
  let dismiss := post (dismiss_url API_BASE articleId) in
  let replacement := get (random_url API_BASE 1) in
  let r := run backend (fetchArticles API_BASE st) st h in
  let d := run backend (handleDismiss API_BASE st articleId) st h in
  (forall msg,
     fetch_failure (backend h random) msg ->
     error (final r) = Some msg /\
     loading (final r) = false /\
     shuffling (final r) = false /\
     articles (final r) = articles st /\
     events r = h ++ [Requested random] /\
     outcome r = Returned tt /\
     (Js.truthy msg = true -> render (final r) = ErrorScreen msg)) /\
  (error (final d) = error st /\ loading (final d) = loading st /\
   outcome d = Returned tt) /\
  (forall e,
     backend h dismiss = Rejected e ->
     final d = st /\
     events d =
       h ++ [Requested dismiss;
             Logged (Js.lit "Failed to dismiss article:") e]) /\
  (forall r1,
     backend h dismiss = Resolved r1 ->
     exists logs,
       events d = h ++ [Requested dismiss; Requested replacement] ++ logs /\
       (logs = [] \/
        exists e,
          logs = [Logged (Js.lit "Failed to dismiss article:") e] /\
          replacement_failure
            (backend (h ++ [Requested dismiss]) replacement) e /\
          final d = st)).
Proof.
  intros random dismiss replacement r d. split; [|split; [|split]].
  - intros msg Hfail. subst r.
    unfold fetchArticles, setShuffling, setArticles, setArticles_fn,
      setSingleIndex, setSingleIndex_fn, setError, setLoading.
    unfold_prog. cbn. fold random.
    assert (Hrender : forall a s sv t m i ad ag,
              Js.truthy msg = true ->
              render (mkState a s false (Some msg) sv t m i ad ag)
              = ErrorScreen msg).
    { intros. unfold render. cbn. by destruct (Js.truthy msg). }
    destruct Hfail as [e0|[o b] Hok|[o b] e0 Hok Hbody]; cbn in *; subst;
      cbn; repeat split; auto.
  - subst d. unfold handleDismiss, setArticles, setArticles_fn.
    unfold_prog. cbn. fold dismiss replacement.
    destruct (backend h dismiss) as [e|r1]; cbn; [done|].
    destruct (decide (viewMode st = single)) as [Hs|Hs]; cbn.
    + destruct (backend _ replacement) as [e|[o [e'|[[l|]]]]]; cbn;
        try destruct l; done.
    + destruct (backend _ replacement) as [e|[o [e'|[[[|first l]|]]]]]; cbn;
        done.
  - intros e Hpost. subst d. unfold handleDismiss. unfold_prog. cbn.
    fold dismiss. rewrite Hpost. cbn. split; [done|].
    by rewrite <- app_assoc.
  - intros r1 Hpost. subst d.
    unfold handleDismiss, setArticles, setArticles_fn. unfold_prog. cbn.
    fold dismiss replacement. rewrite Hpost. cbn.
    destruct (decide (viewMode st = single)) as [Hs|Hs]; cbn.
    + destruct (backend _ replacement) as [e|[o [e'|[[l|]]]]] eqn:Hget; cbn.
      * exists [Logged (Js.lit "Failed to dismiss article:") e].
        split; [by rewrite <- !app_assoc|]. right. exists e.
        repeat split. constructor.
      * exists [Logged (Js.lit "Failed to dismiss article:") e'].
        split; [by rewrite <- !app_assoc|]. right. exists e'.
        repeat split. by constructor.
      * exists []. split; [|by left].
        destruct l; cbn; by rewrite <- !app_assoc.
      * exists [Logged (Js.lit "Failed to dismiss article:") undefined_length].
        split; [by rewrite <- !app_assoc|]. right. exists undefined_length.
        repeat split. by eapply replacement_missing.
    + destruct (backend _ replacement) as [e|[o [e'|[[[|first l]|]]]]] eqn:Hget;
        cbn.
      * exists [Logged (Js.lit "Failed to dismiss article:") e].
        split; [by rewrite <- !app_assoc|]. right. exists e.
        repeat split. constructor.
      * exists [Logged (Js.lit "Failed to dismiss article:") e'].
        split; [by rewrite <- !app_assoc|]. right. exists e'.
        repeat split. by constructor.
      * exists []. split; [by rewrite <- !app_assoc|by left].
      * exists []. split; [by rewrite <- !app_assoc|by left].
      * exists [Logged (Js.lit "Failed to dismiss article:") undefined_length].
        split; [by rewrite <- !app_assoc|]. right. exists undefined_length.
        repeat split. by eapply replacement_missing.
Qed.

End ShellHandlers.

Section ShellRendering.

Import App.

(** C9. On the saved tab in the single view, nothing is indexed when the
    saved list is empty (the empty notice is rendered); otherwise, for
    every value of singleIndex, the position singleIndex % length is
    below the length and the card receives the article at that
    position. *)
Theorem saved_single_view_in_bounds (st : State) :
  activeTab st = saved ->
  viewMode st = single ->
  match render_main st with
  | EmptySaved => displayArticles st = []
  | SingleView (Some card) =>
      displayArticles st ≠ [] /\
      (single_position st < length (displayArticles st))%nat /\
      card_article card = displayArticles st !! single_position st /\
      is_Some (card_article card)
  | _ => False
  end.
Proof.
  intros Htab Hmode. unfold render_main, single_position, displayArticles.
  rewrite Htab, Hmode. cbn.
  destruct (savedArticles st) as [|a l] eqn:Hsaved; cbn [length Nat.eqb]; [done|].
  cbn [Nat.ltb Nat.leb]. 
  assert (Hlt : (singleIndex st mod length (a :: l) < length (a :: l))%nat).
  { apply Nat.mod_upper_bound. cbn. lia. }
  repeat split; [done|exact Hlt|].
  by apply lookup_lt_is_Some.
Qed.

End ShellRendering.

Section AdminFacts.

Import AdminPage.

Variable API_BASE : jsstring.
Variable backend : Backend Data.

Lemma trimStart_nil (s : jsstring) :
  Js.trimStart s = [] <-> forallb Js.is_white_space s = true.
Proof.
  induction s as [|c s IH]; cbn; [done|].
  destruct (Js.is_white_space c); cbn; [done|]. split; discriminate.
Qed.

Lemma trimStart_white (s : jsstring) :
  forallb Js.is_white_space (Js.trimStart s) = true -> Js.trimStart s = [].
Proof.
  induction s as [|c s IH]; cbn; [done|].
  destruct (Js.is_white_space c) eqn:Hc; [done|]. cbn. by rewrite Hc.
Qed.

Lemma forallb_rev {A} (f : A -> bool) (l : list A) :
  forallb f (rev l) = forallb f l.
Proof.
  induction l as [|x l IH]; [done|]. cbn.
  rewrite forallb_app, IH. cbn. rewrite andb_true_r. apply andb_comm.
Qed.

(** A string is blank for the form exactly when every code unit of it is
    white space. *)
Lemma blank_all_white_space (s : jsstring) :
  blank s = forallb Js.is_white_space s.
Proof.
  apply eq_true_iff_eq. rewrite <- trimStart_nil.
  unfold blank, Js.trim, Js.trimEnd. split.
  - intros Hb.
    assert (Hnil : rev (Js.trimStart (rev (Js.trimStart s))) = []).
    { destruct (rev _); [done|discriminate]. }
    apply (f_equal (@rev N)) in Hnil. rewrite rev_involutive in Hnil. cbn in Hnil.
    apply trimStart_nil in Hnil. rewrite forallb_rev in Hnil.
    by apply trimStart_white.
  - intros ->. done.
Qed.

(** C10. The manual save validates before any effect.  With a title or
    url that is blank after trimming, the handler returns having only set
    the error to 'Title and URL are required': no request, no log, no
    timer, and the articles, the stats and the form are as they were.
    Otherwise the first thing it does to the outside is the POST of the
    form to /articles. *)
Theorem manual_save_validates (st : State) (h : list Event) :
  let r := run backend (handleManualSave API_BASE st) st h in
  if blank (title (manualForm st)) || blank (url (manualForm st)) then
    r = mkRun
          (mkState (url_input st) (loading st) (preview st)
             (Some (Js.lit "Title and URL are required")) (success st)
             (articles st) (stats st) (addMode st) (manualForm st))
          h (Returned tt)
  else
    exists rest,
      events r =
        h ++
        Requested
          (mkRequest POST (API_BASE ++ Js.lit "/articles")
             (Some (request_body (manualForm st)))) :: rest.
Proof.
  intros r. subst r. unfold handleManualSave.
  destruct (blank (title (manualForm st)) || blank (url (manualForm st))).
  - reflexivity.
  - unfold setLoading, setError, setSuccess, setManualForm, fetchStats,
      fetchArticles, setStats, setArticles, save_request.
    unfold_prog. cbn.
    destruct (backend h _) as [e|[o [e'|d]]]; cbn.
    + by exists [].
    + by exists [].
    + destruct o; cbn; [|by exists []].
      repeat match goal with
      | |- context [match backend ?a ?b with _ => _ end] =>
          destruct (backend a b) as [?|[? [?|?]]]; cbn
      end;
      rewrite <- ?app_assoc; cbn; eauto.
Qed.

End AdminFacts.

(* ===================================================================== *)
(** ** The model on small inputs *)
(* ===================================================================== *)

Example trim_strips_both_ends :
  Js.trim ([32; 9]%N ++ Js.lit "a b" ++ [10; 160; 8232]%N) = Js.lit "a b".
Proof. reflexivity. Qed.

Example trim_keeps_inner_space :
  Js.trim (Js.lit " a  b ") = Js.lit "a  b".
Proof. reflexivity. Qed.

Example number_id_in_url :
  App.dismiss_url Samples.api (IdNum 42) = Js.lit "/api/articles/42/dismiss".
Proof. reflexivity. Qed.

Example string_id_in_url :
  App.dismiss_url Samples.api (IdStr (Js.lit "a-7")) =
  Js.lit "/api/articles/a-7/dismiss".
Proof. reflexivity. Qed.

Example feed_asks_for_eight :
  App.random_url Samples.api 8 = Js.lit "/api/articles/random?count=8".
Proof. reflexivity. Qed.

Example number_is_not_string :
  has_id (IdStr (Js.lit "1")) (Samples.sample_article 1) = false.
Proof. reflexivity. Qed.

Example dismiss_on_cards :
  run (Samples.serving [Samples.sample_article 3])
    (App.handleDismiss Samples.api Samples.two_cards (IdNum 2))
    Samples.two_cards [] =
  mkRun
    (App.mkState [Samples.sample_article 1; Samples.sample_article 3] []
       false None false App.discover App.cards 0 false false)
    [Requested (mkRequest POST (Js.lit "/api/articles/2/dismiss") None);
     Requested (mkRequest GET (Js.lit "/api/articles/random?count=1") None)]
    (Returned tt).
Proof. reflexivity. Qed.

Example save_then_unsave :
  App.savedArticles
    (App.state
       (App.steps Samples.api Samples.offline Samples.ids_text Samples.fresh
          [App.Save (Samples.sample_article 1);
           App.Save (Samples.sample_article 2);
           App.Save (Samples.sample_article 1)])) =
  [Samples.sample_article 2].
Proof. reflexivity. Qed.

Example blank_title_is_refused :
  run Samples.admin_offline
    (AdminPage.handleManualSave Samples.api Samples.blank_title)
    Samples.blank_title [] =
  mkRun
    (AdminPage.with_error (Some (Js.lit "Title and URL are required"))
       Samples.blank_title)
    [] (Returned tt).
Proof. reflexivity. Qed.

Example filled_form_is_posted :
  events
    (run Samples.admin_offline
       (AdminPage.handleManualSave Samples.api Samples.filled_form)
       Samples.filled_form []) =
  [Requested
     (mkRequest POST (Js.lit "/api/articles")
        (Some (JObject
                 [(Js.lit "title", JString (Js.lit " A title "));
                  (Js.lit "url", JString (Js.lit "https://example.org/a"));
                  (Js.lit "source", JString []);
                  (Js.lit "author", JString []);
                  (Js.lit "summary", JString []);
                  (Js.lit "topics", JArray [JString (Js.lit "reading")]);
                  (Js.lit "read_time", JNull)])))] /\
  AdminPage.error
    (final
       (run Samples.admin_offline
          (AdminPage.handleManualSave Samples.api Samples.filled_form)
          Samples.filled_form [])) = Some (Js.lit "Failed to fetch").
Proof. split; reflexivity. Qed.

(* ===================================================================== *)
(** ** The theorems at concrete inputs, and the inputs that refute *)
(* ===================================================================== *)

Lemma saved_ids_unique_witness :
  App.mount Samples.api Samples.offline Samples.ids_text Samples.parse_one
    Samples.stored_one = Some Samples.mounted_offline /\
  (forall text l,
     Samples.stored_one !! App.STORAGE_KEY = Some text ->
     Samples.parse_one text = Some l -> unique_ids l) /\
  unique_ids
    (App.savedArticles (App.state
       (App.steps Samples.api Samples.offline Samples.ids_text
          Samples.mounted_offline Samples.two_saves))) /\
  (forall article,
     App.isArticleSaved
       (App.state (App.steps Samples.api Samples.offline Samples.ids_text
                     Samples.mounted_offline Samples.two_saves))
       (id article) = true ->
     App.savedArticles
       (App.state
          (App.step Samples.api Samples.offline Samples.ids_text
             (App.steps Samples.api Samples.offline Samples.ids_text
                Samples.mounted_offline Samples.two_saves)
             (App.Save article))) =
     filter (fun a => id a ≠ id article)
       (App.savedArticles
          (App.state (App.steps Samples.api Samples.offline Samples.ids_text
                        Samples.mounted_offline Samples.two_saves)))).
Proof.
  assert (Hm : App.mount Samples.api Samples.offline Samples.ids_text
                 Samples.parse_one Samples.stored_one
               = Some Samples.mounted_offline) by reflexivity.
  assert (Hs : forall text l,
             Samples.stored_one !! App.STORAGE_KEY = Some text ->
             Samples.parse_one text = Some l -> unique_ids l).
  { intros text l _ Hparse. unfold Samples.parse_one in Hparse.
    destruct (decide _); [|discriminate].
    injection Hparse as <-. apply NoDup_singleton. }
  split; [exact Hm|]. split; [exact Hs|].
  exact (saved_ids_unique Samples.api Samples.offline Samples.ids_text
           Samples.parse_one Samples.stored_one Samples.mounted_offline
           Samples.two_saves Hm Hs).
Defined.

Lemma storage_follows_saved_witness :
  App.mount Samples.api Samples.offline Samples.ids_text Samples.parse_one
    Samples.stored_one = Some Samples.mounted_offline /\
  App.localStorage
    (App.steps Samples.api Samples.offline Samples.ids_text
       Samples.mounted_offline Samples.session) !! App.STORAGE_KEY =
    Some (Samples.ids_text
            (App.savedArticles (App.state
               (App.steps Samples.api Samples.offline Samples.ids_text
                  Samples.mounted_offline Samples.session)))) /\
  (forall k, k ≠ App.STORAGE_KEY ->
     App.localStorage
       (App.steps Samples.api Samples.offline Samples.ids_text
          Samples.mounted_offline Samples.session) !! k =
     Samples.stored_one !! k).
Proof.
  assert (Hm : App.mount Samples.api Samples.offline Samples.ids_text
                 Samples.parse_one Samples.stored_one
               = Some Samples.mounted_offline) by reflexivity.
  split; [exact Hm|].
  exact (storage_follows_saved Samples.api Samples.offline Samples.ids_text
           Samples.parse_one Samples.stored_one Samples.mounted_offline
           Samples.session Hm).
Defined.

Lemma saved_set_unbounded_witness :
  App.savedArticles (App.state Samples.fresh) = [] /\
  unique_ids Samples.three_articles /\
  App.savedArticles
    (App.state (App.steps Samples.api Samples.offline Samples.ids_text
                  Samples.fresh (map App.Save Samples.three_articles))) =
    Samples.three_articles /\
  length
    (App.savedArticles
       (App.state (App.steps Samples.api Samples.offline Samples.ids_text
                     Samples.fresh (map App.Save Samples.three_articles)))) =
    length Samples.three_articles /\
  (forall acts a,
     a ∈ Samples.three_articles ->
     (forall a', App.Save a' ∈ acts -> id a' ≠ id a) ->
     a ∈ App.savedArticles
           (App.state
              (App.steps Samples.api Samples.offline Samples.ids_text
                 (App.steps Samples.api Samples.offline Samples.ids_text
                    Samples.fresh (map App.Save Samples.three_articles))
                 acts))).
Proof.
  assert (He : App.savedArticles (App.state Samples.fresh) = [])
    by reflexivity.
  assert (Hu : unique_ids Samples.three_articles).
  { apply (bool_decide_eq_true_1 (NoDup _)). reflexivity. }
  split; [exact He|]. split; [exact Hu|].
  exact (saved_set_unbounded Samples.api Samples.offline Samples.ids_text
           Samples.fresh Samples.three_articles He Hu).
Defined.

Lemma dismiss_replaces_in_place_witness :
  App.viewMode Samples.two_cards ≠ App.single /\
  Samples.serving [Samples.sample_article 3] []
    (App.post (App.dismiss_url Samples.api (IdNum 1))) =
    Resolved (mkResponse true
                (inr (App.mkData (Some [Samples.sample_article 3])))) /\
  Samples.serving [Samples.sample_article 3]
    ([] ++ [Requested (App.post (App.dismiss_url Samples.api (IdNum 1)))])
    (App.get (App.random_url Samples.api 1)) =
    Resolved (mkResponse true
                (inr (App.mkData (Some [Samples.sample_article 3])))) /\
  length
    (App.articles
       (final (run (Samples.serving [Samples.sample_article 3])
                 (App.handleDismiss Samples.api Samples.two_cards (IdNum 1))
                 Samples.two_cards []))) =
    length (App.articles Samples.two_cards) /\
  (forall i a,
     App.articles Samples.two_cards !! i = Some a ->
     App.articles
       (final (run (Samples.serving [Samples.sample_article 3])
                 (App.handleDismiss Samples.api Samples.two_cards (IdNum 1))
                 Samples.two_cards [])) !! i =
       Some (if decide (id a = IdNum 1)
             then Samples.sample_article 3 else a)) /\
  final (run (Samples.serving [Samples.sample_article 3])
           (App.handleDismiss Samples.api Samples.two_cards (IdNum 1))
           Samples.two_cards []) =
    App.mkState [Samples.sample_article 3; Samples.sample_article 2] []
      false None false App.discover App.cards 0 false false /\
  (App.activeTab Samples.two_cards = App.discover ->
   length
     (App.displayArticles
        (final (run (Samples.serving [Samples.sample_article 3])
                  (App.handleDismiss Samples.api Samples.two_cards (IdNum 1))
                  Samples.two_cards []))) =
     length (App.displayArticles Samples.two_cards) /\
   forall i a,
     App.displayArticles Samples.two_cards !! i = Some a ->
     App.displayArticles
       (final (run (Samples.serving [Samples.sample_article 3])
                 (App.handleDismiss Samples.api Samples.two_cards (IdNum 1))
                 Samples.two_cards [])) !! i =
       Some (if decide (id a = IdNum 1)
             then Samples.sample_article 3 else a)) /\
  (App.activeTab Samples.two_cards = App.saved ->
   App.displayArticles
     (final (run (Samples.serving [Samples.sample_article 3])
               (App.handleDismiss Samples.api Samples.two_cards (IdNum 1))
               Samples.two_cards [])) =
   App.displayArticles Samples.two_cards).
Proof.
  assert (Hv : App.viewMode Samples.two_cards ≠ App.single) by discriminate.
  split; [exact Hv|]. split; [reflexivity|]. split; [reflexivity|].
  exact (dismiss_replaces_in_place Samples.api
           (Samples.serving [Samples.sample_article 3])
           Samples.two_cards (IdNum 1) []
           (mkResponse true (inr (App.mkData (Some [Samples.sample_article 3]))))
           true [Samples.sample_article 3] Hv eq_refl eq_refl).
Defined.

(** C3 as the claim states it fails: on the saved tab in the cards view
    the displayed list is the saved set; the article with id 1 is in it,
    its dismiss is sent and a replacement arrives, and the displayed list
    is as before, the dismissed article still at its place. *)
Lemma dismiss_on_saved_tab_replaces_nothing :
  App.viewMode MoreSamples.saved_cards ≠ App.single /\
  App.displayArticles MoreSamples.saved_cards =
    [Samples.sample_article 1; Samples.sample_article 2] /\
  id (Samples.sample_article 1) = IdNum 1 /\
  Samples.serving [Samples.sample_article 3] []
    (App.post (App.dismiss_url Samples.api (IdNum 1))) =
    Resolved (mkResponse true
                (inr (App.mkData (Some [Samples.sample_article 3])))) /\
  Samples.serving [Samples.sample_article 3]
    [Requested (App.post (App.dismiss_url Samples.api (IdNum 1)))]
    (App.get (App.random_url Samples.api 1)) =
    Resolved (mkResponse true
                (inr (App.mkData (Some [Samples.sample_article 3])))) /\
  App.displayArticles
    (final (run (Samples.serving [Samples.sample_article 3])
              (App.handleDismiss Samples.api MoreSamples.saved_cards (IdNum 1))
              MoreSamples.saved_cards [])) =
    [Samples.sample_article 1; Samples.sample_article 2] /\
  App.displayArticles
    (final (run (Samples.serving [Samples.sample_article 3])
              (App.handleDismiss Samples.api MoreSamples.saved_cards (IdNum 1))
              MoreSamples.saved_cards [])) !! 0%nat ≠
    Some (Samples.sample_article 3).
Proof. repeat split; discriminate. Qed.

(** C2 as the claim states it fails: the backend may answer the
    replacement request with an article that is already on display. *)
Lemma dismiss_can_duplicate_ids :
  unique_ids (App.articles Samples.two_cards) /\
  App.articles
    (final (run (Samples.serving [Samples.sample_article 2])
              (App.handleDismiss Samples.api Samples.two_cards (IdNum 1))
              Samples.two_cards [])) =
    [Samples.sample_article 2; Samples.sample_article 2] /\
  ~ unique_ids
      (App.articles
         (final (run (Samples.serving [Samples.sample_article 2])
                   (App.handleDismiss Samples.api Samples.two_cards (IdNum 1))
                   Samples.two_cards []))) /\
  App.displayArticles Samples.two_cards = App.articles Samples.two_cards /\
  App.displayArticles
    (final (run (Samples.serving [Samples.sample_article 2])
              (App.handleDismiss Samples.api Samples.two_cards (IdNum 1))
              Samples.two_cards [])) =
    [Samples.sample_article 2; Samples.sample_article 2].
Proof.
  split; [|split; [|split; [|split]]].
  - apply (bool_decide_eq_true_1 (NoDup _)). reflexivity.
  - reflexivity.
  - apply (bool_decide_eq_true_1 (~ NoDup _)). reflexivity.
  - reflexivity.
  - reflexivity.
Qed.

Lemma dismiss_keeps_unique_ids_witness :
  unique_ids (App.displayArticles Samples.two_cards) /\
  unique_ids
    (App.displayArticles
       (final (run (Samples.serving [Samples.sample_article 3])
                 (App.handleDismiss Samples.api Samples.two_cards (IdNum 1))
                 Samples.two_cards []))) /\
  (final (run (Samples.serving [Samples.sample_article 3])
            (App.handleDismiss Samples.api Samples.two_cards (IdNum 1))
            Samples.two_cards []) = Samples.two_cards \/
   exists r1 ok2 first rest,
     Samples.serving [Samples.sample_article 3] []
       (App.post (App.dismiss_url Samples.api (IdNum 1))) = Resolved r1 /\
     Samples.serving [Samples.sample_article 3]
       ([] ++ [Requested (App.post (App.dismiss_url Samples.api (IdNum 1)))])
       (App.get (App.random_url Samples.api 1)) =
       Resolved (mkResponse ok2 (inr (App.mkData (Some (first :: rest)))))).
Proof.
  assert (Hu : unique_ids (App.displayArticles Samples.two_cards)).
  { apply (bool_decide_eq_true_1 (NoDup _)). reflexivity. }
  split; [exact Hu|].
  apply (dismiss_keeps_unique_ids Samples.api
           (Samples.serving [Samples.sample_article 3])
           Samples.two_cards (IdNum 1) [] Hu).
  intros r1 ok2 l _ _ Hget. injection Hget as _ <-. cbn.
  intros first a [= <-] Ha Hne.
  apply elem_of_cons in Ha as [->|Ha]; [done|].
  apply list_elem_of_singleton in Ha as ->. discriminate.
Defined.

(** C4 as the claim states it fails: without network the dismiss request
    rejects, and the shell goes on showing its cards, with no error. *)
Lemma dismiss_failure_not_shown :
  Samples.offline [] (App.post (App.dismiss_url Samples.api (IdNum 1))) =
    Rejected (mkError (Js.lit "Failed to fetch")) /\
  App.error
    (final (run Samples.offline
              (App.handleDismiss Samples.api Samples.two_cards (IdNum 1))
              Samples.two_cards [])) = None /\
  App.render
    (final (run Samples.offline
              (App.handleDismiss Samples.api Samples.two_cards (IdNum 1))
              Samples.two_cards [])) =
    App.MainScreen 0
      (App.CardsView
         [App.mkCard (Some (Samples.sample_article 1)) false App.cards;
          App.mkCard (Some (Samples.sample_article 2)) false App.cards])
      true.
Proof. repeat split. Qed.

Lemma failures_surface_witness :
  fetch_failure
    (MoreSamples.failing_500 [] (App.get (App.random_url Samples.api 4)))
    (Js.lit "Failed to fetch articles") /\
  App.error
    (final (run MoreSamples.failing_500
              (App.fetchArticles Samples.api Samples.two_cards)
              Samples.two_cards [])) =
    Some (Js.lit "Failed to fetch articles") /\
  App.render
    (final (run MoreSamples.failing_500
              (App.fetchArticles Samples.api Samples.two_cards)
              Samples.two_cards [])) =
    App.ErrorScreen (Js.lit "Failed to fetch articles") /\
  App.error
    (final (run MoreSamples.failing_500
              (App.handleDismiss Samples.api Samples.two_cards (IdNum 1))
              Samples.two_cards [])) = None /\
  Samples.offline [] (App.post (App.dismiss_url Samples.api (IdNum 1))) =
    Rejected (mkError (Js.lit "Failed to fetch")) /\
  final (run Samples.offline
           (App.handleDismiss Samples.api Samples.two_cards (IdNum 1))
           Samples.two_cards []) = Samples.two_cards /\
  events (run Samples.offline
            (App.handleDismiss Samples.api Samples.two_cards (IdNum 1))
            Samples.two_cards []) =
    [Requested (App.post (App.dismiss_url Samples.api (IdNum 1)));
     Logged (Js.lit "Failed to dismiss article:")
       (mkError (Js.lit "Failed to fetch"))] /\
  exists logs,
    events (run MoreSamples.failing_500
              (App.handleDismiss Samples.api Samples.two_cards (IdNum 1))
              Samples.two_cards []) =
      [] ++ [Requested (App.post (App.dismiss_url Samples.api (IdNum 1)));
             Requested (App.get (App.random_url Samples.api 1))] ++ logs /\
    (logs = [] \/
     exists e,
       logs = [Logged (Js.lit "Failed to dismiss article:") e] /\
       replacement_failure
         (MoreSamples.failing_500
            ([] ++ [Requested
                      (App.post (App.dismiss_url Samples.api (IdNum 1)))])
            (App.get (App.random_url Samples.api 1))) e /\
       final (run MoreSamples.failing_500
                (App.handleDismiss Samples.api Samples.two_cards (IdNum 1))
                Samples.two_cards []) = Samples.two_cards).
Proof.
  assert (Hf : fetch_failure
                 (MoreSamples.failing_500 []
                    (App.get (App.random_url Samples.api 4)))
                 (Js.lit "Failed to fetch articles"))
    by exact (status_failure
                (mkResponse false (inr (App.mkData None))) eq_refl).
  destruct (failures_surface Samples.api MoreSamples.failing_500
              Samples.two_cards (IdNum 1) [])
    as (Hfetch & (Hnever & _) & _ & Hstatus).
  destruct (Hfetch _ Hf) as (Herr & _ & _ & _ & _ & _ & Hrender).
  destruct (failures_surface Samples.api Samples.offline
              Samples.two_cards (IdNum 1) [])
    as (_ & _ & Hrejected & _).
  destruct (Hrejected _ eq_refl) as (Hfinal & Hevents).
  split; [exact Hf|]. split; [exact Herr|].
  split; [exact (Hrender eq_refl)|]. split; [exact Hnever|].
  split; [reflexivity|]. split; [exact Hfinal|]. split; [exact Hevents|].
  exact (Hstatus _ eq_refl).
Defined.

Lemma saved_single_view_in_bounds_witness :
  App.activeTab Samples.saved_single = App.saved /\
  App.viewMode Samples.saved_single = App.single /\
  App.single_position Samples.saved_single = 1%nat /\
  match App.render_main Samples.saved_single with
  | App.EmptySaved => App.displayArticles Samples.saved_single = []
  | App.SingleView (Some card) =>
      App.displayArticles Samples.saved_single ≠ [] /\
      (App.single_position Samples.saved_single <
       length (App.displayArticles Samples.saved_single))%nat /\
      App.card_article card =
        App.displayArticles Samples.saved_single !!
          App.single_position Samples.saved_single /\
      is_Some (App.card_article card)
  | _ => False
  end.
Proof.
  split; [reflexivity|]. split; [reflexivity|]. split; [reflexivity|].
  exact (saved_single_view_in_bounds Samples.saved_single eq_refl eq_refl).
Defined.

(* ===================================================================== *)
(** ** Further properties of the shell *)
(* ===================================================================== *)

(** Sequencing: the second program starts where the first returned; an
    uncaught throw or a run that left the model ends the sequence. *)
Lemma run_bind {St Pl A B : Type} (backend : Backend Pl)
    (p : Prog St Pl A) (f : A -> Prog St Pl B) (st : St) (h : list Event) :
  run backend (bind p f) st h =
  match outcome (run backend p st h) with
  | Returned a =>
      run backend (f a) (final (run backend p st h))
        (events (run backend p st h))
  | Uncaught e =>
      mkRun (final (run backend p st h)) (events (run backend p st h))
        (Uncaught e)
  | LeftModel =>
      mkRun (final (run backend p st h)) (events (run backend p st h))
        LeftModel
  end.
Proof.
  revert B f st h.
  induction p as [A a|A e|A r k IH|A g k IH|A l e k IH|A c ms k IH
                 |A q _ k IH|A];
    intros B f st h; cbn; auto.
Qed.

Section ShellMore.

Import App.

Variable API_BASE : jsstring.
Variable backend : Backend Data.
Variable stringify : list Article -> jsstring.
Variable parse : jsstring -> option (list Article).

Local Abbreviation step := (step API_BASE backend stringify).
Local Abbreviation steps := (steps API_BASE backend stringify).
Local Abbreviation mount := (mount API_BASE backend stringify parse).

Lemma session_storage_key (store : gmap jsstring jsstring) (w : World)
    (acts : list Action) :
  mount store = Some w ->
  localStorage (steps w acts) !! STORAGE_KEY =
    Some (stringify (savedArticles (state (steps w acts)))).
Proof.
  intros Hmount. induction acts as [|act acts IH] using rev_ind.
  - destruct (mount_result _ _ _ _ _ _ Hmount) as (loaded & _ & Hs & Hst).
    cbn. rewrite Hs, Hst. destruct loaded; cbn; apply lookup_insert_eq.
  - rewrite steps_snoc, step_storage. destruct act;
      try (rewrite step_other_saved by discriminate; exact IH).
    apply lookup_insert_eq.
Qed.

(** The saved set survives a reload: mounting again on the localStorage
    that a session left gives back the saved set of that session, when
    JSON.parse reads what JSON.stringify wrote for it. *)
Theorem reload_restores_saved (backend' : Backend Data)
    (store : gmap jsstring jsstring) (w : World) (acts : list Action) :
  mount store = Some w ->
  parse (stringify (savedArticles (state (steps w acts)))) =
    Some (savedArticles (state (steps w acts))) ->
  Js.truthy (stringify (savedArticles (state (steps w acts)))) = true ->
  exists w',
    App.mount API_BASE backend' stringify parse
      (localStorage (steps w acts)) = Some w' /\
    savedArticles (state w') = savedArticles (state (steps w acts)).
Proof.
  intros Hmount Hparse Htruthy.
  pose proof (session_storage_key store w acts Hmount) as Hkey.
  assert (Hload : load parse (localStorage (steps w acts)) =
                  Some (Some (savedArticles (state (steps w acts))))).
  { unfold load. by rewrite Hkey, Htruthy, Hparse. }
  unfold App.mount. rewrite Hload. eexists. split; [reflexivity|].
  unfold exec. cbn [state]. by rewrite fetchArticles_frame.
Qed.

(** A successful fetch installs the fetched list, puts the single view
    back at its first position, clears the error and ends the loading
    and shuffling states, after one request for the number of articles of
    the view mode. *)
Theorem fetchArticles_success (st : State) (h : list Event)
    (l : list Article) :
  backend h (get (random_url API_BASE (count_of (viewMode st)))) =
    Resolved (mkResponse true (inr (mkData (Some l)))) ->
  run backend (fetchArticles API_BASE st) st h =
  mkRun
    (mkState l (savedArticles st) false None false (activeTab st)
       (viewMode st) 0 (showAdmin st) (showAgent st))
    (h ++ [Requested (get (random_url API_BASE (count_of (viewMode st))))])
    (Returned tt).
Proof.
  intros Hget. unfold fetchArticles, setShuffling, setArticles,
    setArticles_fn, setSingleIndex, setSingleIndex_fn, setError, setLoading.
  unfold_prog. cbn.
  change (match viewMode st with single => 1 | cards => 4 | feed => 8 end)
    with (count_of (viewMode st)).
  rewrite Hget. reflexivity.
Qed.

(** Show me more: in the single view with a next article in the list it
    only advances singleIndex, without any request, and on the discover
    tab, which always shows the first article, the screen does not
    change; in every other case it does what fetchArticles does. *)
Theorem showMore_cases (st : State) (h : list Event) :
  let r := run backend (handleShowMore API_BASE st) st h in
  if bool_decide (viewMode st = single) &&
     bool_decide (singleIndex st + 1 < length (articles st))%nat
  then
    events r = h /\
    final r =
      mkState (articles st) (savedArticles st) (loading st) (error st)
        (shuffling st) (activeTab st) (viewMode st) (singleIndex st + 1)
        (showAdmin st) (showAgent st) /\
    (activeTab st = discover -> render (final r) = render st)
  else
    events r = events (run backend (fetchArticles API_BASE st) st h) /\
    final r = final (run backend (fetchArticles API_BASE st) st h).
Proof.
  intros r. subst r. unfold handleShowMore.
  assert (Hcmp : (Z.of_nat (singleIndex st) <?
                  Z.of_nat (length (articles st)) - 1) =
                 bool_decide (singleIndex st + 1 < length (articles st))%nat).
  { destruct (Z.ltb_spec (Z.of_nat (singleIndex st))
                (Z.of_nat (length (articles st)) - 1));
      [rewrite bool_decide_eq_true_2|rewrite bool_decide_eq_false_2]; lia. }
  rewrite Hcmp.
  destruct (bool_decide (viewMode st = single)) eqn:Hmode; cbn [andb];
    [|by split].
  destruct (bool_decide (singleIndex st + 1 < length (articles st))%nat);
    [|by split].
  apply bool_decide_eq_true in Hmode. cbn. repeat split.
  intros Htab. unfold render, render_main, displayArticles, isSaved_opt,
    isArticleSaved. cbn. rewrite Htab, Hmode. reflexivity.
Qed.

(** Whatever the backend answers, a dismiss returns normally and changes
    nothing but the list of articles: the saved set, the tab, the view
    mode, the error and the flags are as before.  In the cards and feed
    modes the list also keeps its length. *)
Theorem dismiss_touches_only_articles (st : State) (articleId : ArticleId)
    (h : list Event) :
  let r := run backend (handleDismiss API_BASE st articleId) st h in
  outcome r = Returned tt /\
  final r =
    mkState (articles (final r)) (savedArticles st) (loading st) (error st)
      (shuffling st) (activeTab st) (viewMode st) (singleIndex st)
      (showAdmin st) (showAgent st) /\
  (viewMode st ≠ single ->
   length (articles (final r)) = length (articles st)).
Proof.
  intros r. subst r. unfold handleDismiss, setArticles, setArticles_fn.
  unfold_prog. cbn.
  destruct (backend h _) as [e|r1]; cbn; [by destruct st|].
  destruct (decide (viewMode st = single)) as [Hs|Hs]; cbn.
  - destruct (backend _ _) as [e|[o [e'|[[l|]]]]]; cbn;
      try destruct l; cbn; by destruct st.
  - destruct (backend _ _) as [e|[o [e'|[[[|first l]|]]]]]; cbn;
      try (by destruct st).
    repeat split. intros _. apply length_map.
Qed.

(** Dismiss in the single view, when the dismiss POST resolves and the
    replacement fetch answers with the articles [l]: a non-empty [l]
    becomes the whole list, however many articles it has, an empty [l]
    leaves the list as it was; singleIndex is not reset. *)
Theorem dismiss_single_replaces_list (st : State) (articleId : ArticleId)
    (h : list Event) (r1 : Response Data) (ok2 : bool) (l : list Article) :
  viewMode st = single ->
  backend h (post (dismiss_url API_BASE articleId)) = Resolved r1 ->
  backend (h ++ [Requested (post (dismiss_url API_BASE articleId))])
    (get (random_url API_BASE 1)) =
    Resolved (mkResponse ok2 (inr (mkData (Some l)))) ->
  let st' := final (run backend (handleDismiss API_BASE st articleId) st h) in
  articles st' = match l with [] => articles st | _ :: _ => l end /\
  singleIndex st' = singleIndex st.
Proof.
  intros Hmode Hpost Hget st'. subst st'.
  unfold handleDismiss, setArticles, setArticles_fn. unfold_prog. cbn.
  rewrite Hpost. cbn.
  destruct (decide (viewMode st = single)) as [_|Hs]; [|done]. cbn.
  rewrite Hget. cbn. by destruct l.
Qed.

(** When the dismiss POST has resolved but the replacement cannot be
    had (rejected fetch, body that is not JSON, JSON without articles),
    the state is exactly as before, the dismissed article included,
    although the dismiss has been sent; the error goes to the console,
    once. *)
Theorem dismiss_without_replacement (st : State) (articleId : ArticleId)
    (h : list Event) (r1 : Response Data) (res : FetchResult Data)
    (e : JsError) :
  backend h (post (dismiss_url API_BASE articleId)) = Resolved r1 ->
  backend (h ++ [Requested (post (dismiss_url API_BASE articleId))])
    (get (random_url API_BASE 1)) = res ->
  replacement_failure res e ->
  run backend (handleDismiss API_BASE st articleId) st h =
  mkRun st
    (h ++ [Requested (post (dismiss_url API_BASE articleId));
           Requested (get (random_url API_BASE 1));
           Logged (Js.lit "Failed to dismiss article:") e])
    (Returned tt).
Proof.
  intros Hpost Hget Hfail.
  unfold handleDismiss, setArticles, setArticles_fn. unfold_prog. cbn.
  rewrite Hpost. cbn.
  destruct (decide (viewMode st = single)) as [Hs|Hs]; cbn; rewrite Hget;
    destruct Hfail as [e|[o b] e Hb|[o b] [a] Hb Ha]; cbn in *; subst; cbn;
    by rewrite <- !app_assoc.
Qed.

(** On the saved tab every card that is rendered is marked as saved, in
    each of the three views. *)
Theorem saved_tab_cards_are_saved (st : State) (c : Card) :
  activeTab st = saved ->
  c ∈ cards_of (render_main st) ->
  card_isSaved c = true /\
  exists a, card_article c = Some a /\ a ∈ savedArticles st.
Proof.
  intros Htab.
  assert (Hd : displayArticles st = savedArticles st).
  { unfold displayArticles. by rewrite Htab. }
  assert (Hcard : forall a, a ∈ savedArticles st ->
            card_isSaved (card_of st a) = true /\
            exists b, card_article (card_of st a) = Some b /\
                      b ∈ savedArticles st).
  { intros a Ha. cbn. split; [|by exists a].
    apply some_id_true, list_elem_of_fmap. by exists a. }
  unfold render_main, single_position. rewrite Hd, Htab.
  rewrite (bool_decide_eq_true_2 (saved = saved)) by done. cbn [andb].
  destruct (decide (saved = saved)) as [_|]; [|done].
  destruct (length (savedArticles st) =? 0)%nat eqn:Hlen.
  { cbn. by intros ?%elem_of_nil. }
  apply Nat.eqb_neq in Hlen.
  destruct (decide (viewMode st = single)) as [Hs|Hs].
  - rewrite (proj2 (Nat.ltb_lt _ _)) by lia. cbn [cards_of].
    intros ->%list_elem_of_singleton. cbn.
    destruct (savedArticles st !! _) as [a|] eqn:Hlook.
    + apply list_elem_of_lookup_2 in Hlook. cbn.
      split; [|by exists a].
      apply some_id_true, list_elem_of_fmap. by exists a.
    + apply lookup_ge_None in Hlook.
      pose proof (Nat.mod_upper_bound (singleIndex st)
                    (length (savedArticles st)) Hlen). lia.
  - destruct (decide (viewMode st = feed)); cbn [cards_of];
      intros (a & -> & Ha)%list_elem_of_fmap; by apply Hcard.
Qed.

(** Selecting a view mode: choosing the current mode requests nothing;
    choosing another one makes it the view mode and issues one request,
    for the number of articles of the new mode. *)
Theorem select_view_refetches (w : World) (m : ViewMode) :
  viewMode (state (step w (SelectView m))) = m /\
  requests (history (step w (SelectView m))) =
    requests (history w) ++
    (if decide (m = viewMode (state w)) then []
     else [get (random_url API_BASE (count_of m))]).
Proof.
  cbn. destruct (decide (m = viewMode (state w))) as [->|Hne]; cbn.
  - split; [done|by rewrite app_nil_r].
  - unfold fetchArticles, setShuffling, setArticles, setArticles_fn,
      setSingleIndex, setSingleIndex_fn, setError, setLoading.
    unfold_prog. cbn.
    change (match m with single => 1 | cards => 4 | feed => 8 end)
      with (count_of m).
    destruct (backend _ _) as [e|[[] [e'|[[l|]]]]]; cbn;
      by rewrite requests_snoc_request.
Qed.

(** One save flips the saved mark of the article's id and of no other
    id. *)
Theorem save_flips_one_id (w : World) (article : Article) (i : ArticleId) :
  isArticleSaved (state (step w (Save article))) i =
  if decide (i = id article) then negb (isArticleSaved (state w) i)
  else isArticleSaved (state w) i.
Proof.
  unfold isArticleSaved. rewrite step_Save_saved. unfold isArticleSaved.
  destruct (some_id (id article) (savedArticles (state w))) eqn:Hsaved.
  - destruct (decide (i = id article)) as [->|Hne].
    + rewrite Hsaved. apply some_id_false, filter_removes.
    + apply eq_true_iff_eq. rewrite !some_id_true. split.
      * intros (b & -> & Hb)%list_elem_of_fmap.
        apply list_elem_of_filter in Hb as [_ Hb].
        apply list_elem_of_fmap. by exists b.
      * intros (b & -> & Hb)%list_elem_of_fmap.
        apply list_elem_of_fmap. exists b. split; [done|].
        by apply list_elem_of_filter.
  - destruct (decide (i = id article)) as [->|Hne].
    + rewrite Hsaved. apply some_id_true. rewrite map_app.
      apply elem_of_app. right. cbn. left.
    + apply eq_true_iff_eq. rewrite !some_id_true, map_app, elem_of_app.
      cbn. rewrite list_elem_of_singleton. tauto.
Qed.

End ShellMore.

(* ===================================================================== *)
(** ** Further properties of the admin panel *)
(* ===================================================================== *)

Section Trim.

Lemma trimStart_starts_clean (s : jsstring) : starts_clean (Js.trimStart s).
Proof.
  induction s as [|c s IH]; cbn; [done|].
  destruct (Js.is_white_space c) eqn:Hc; [done|]. by cbn.
Qed.

Lemma trimStart_fixed (s : jsstring) : starts_clean s -> Js.trimStart s = s.
Proof. destruct s as [|c s]; cbn; [done|]. by intros ->. Qed.

Lemma trimStart_snoc (l : jsstring) (c : N) :
  Js.is_white_space c = false ->
  Js.trimStart (l ++ [c]) = Js.trimStart l ++ [c].
Proof.
  intros Hc. induction l as [|x l IH]; cbn; [by rewrite Hc|].
  by destruct (Js.is_white_space x).
Qed.

Lemma trimEnd_starts_clean (s : jsstring) :
  starts_clean s -> starts_clean (Js.trimEnd s).
Proof.
  destruct s as [|c s]; [done|]. cbn [starts_clean]. intros Hc.
  unfold Js.trimEnd. cbn [rev]. rewrite trimStart_snoc by done.
  rewrite rev_app_distr. by cbn.
Qed.

Lemma trimEnd_fixed (s : jsstring) :
  starts_clean (rev s) -> Js.trimEnd s = s.
Proof.
  intros H. unfold Js.trimEnd. rewrite trimStart_fixed by done.
  apply rev_involutive.
Qed.

Lemma trim_idempotent (s : jsstring) : Js.trim (Js.trim s) = Js.trim s.
Proof.
  unfold Js.trim at 1.
  rewrite trimStart_fixed.
  - apply trimEnd_fixed. unfold Js.trim, Js.trimEnd. rewrite rev_involutive.
    apply trimStart_starts_clean.
  - apply trimEnd_starts_clean, trimStart_starts_clean.
Qed.

Lemma trimStart_subseteq (s : jsstring) (c : N) :
  c ∈ Js.trimStart s -> c ∈ s.
Proof.
  induction s as [|x s IH]; cbn; [done|].
  destruct (Js.is_white_space x); [|done]. intros H. right. by apply IH.
Qed.

Lemma trim_subseteq (s : jsstring) (c : N) : c ∈ Js.trim s -> c ∈ s.
Proof.
  unfold Js.trim, Js.trimEnd. intros H.
  apply list_elem_of_In, in_rev, list_elem_of_In in H.
  apply trimStart_subseteq in H.
  apply list_elem_of_In, in_rev, list_elem_of_In in H.
  by apply trimStart_subseteq.
Qed.

Lemma trim_leading_space (s : jsstring) : Js.trim (32%N :: s) = Js.trim s.
Proof. reflexivity. Qed.

End Trim.

Section Topics.

Import AdminPage AdminActions.

Lemma split_comma_nonempty (v : jsstring) : split_comma v ≠ [].
Proof.
  destruct v as [|c v]; cbn [split_comma app]; [done|].
  destruct (c =? COMMA)%N; [done|]. by destruct (split_comma v).
Qed.

Lemma split_comma_pieces (v piece : jsstring) :
  piece ∈ split_comma v -> COMMA ∉ piece.
Proof.
  revert piece. induction v as [|c v IH]; intros piece; cbn [split_comma].
  - intros ->%list_elem_of_singleton. apply not_elem_of_nil.
  - destruct (c =? COMMA)%N eqn:Hc.
    + intros [->|H]%elem_of_cons; [apply not_elem_of_nil|by apply IH].
    + apply N.eqb_neq in Hc.
      destruct (split_comma v) as [|p ps] eqn:Hsplit.
      * intros ->%list_elem_of_singleton.
        intros [Heq|?%elem_of_nil]%elem_of_cons; congruence.
      * intros [->|H]%elem_of_cons.
        -- intros [Heq|Hin]%elem_of_cons; [congruence|].
           revert Hin. apply IH. left.
        -- apply IH. by right.
Qed.

Lemma split_comma_prefix (p rest : jsstring) :
  COMMA ∉ p ->
  split_comma (p ++ COMMA :: rest) = p :: split_comma rest.
Proof.
  induction p as [|c p IH]; intros Hp; [done|]. cbn [split_comma app].
  apply not_elem_of_cons in Hp as [Hc Hp].
  rewrite (proj2 (N.eqb_neq c COMMA)) by done. by rewrite IH.
Qed.

Lemma split_comma_whole (p : jsstring) : COMMA ∉ p -> split_comma p = [p].
Proof.
  induction p as [|c p IH]; intros Hp; [done|]. cbn [split_comma app].
  apply not_elem_of_cons in Hp as [Hc Hp].
  rewrite (proj2 (N.eqb_neq c COMMA)) by done. by rewrite IH.
Qed.

Lemma split_comma_joined (p t : jsstring) (ts : list jsstring) :
  COMMA ∉ p -> Forall clean_topic (t :: ts) ->
  split_comma (p ++ join_topics (t :: ts)) =
  (p ++ t) :: map (fun u => 32%N :: u) ts.
Proof.
  revert p t. induction ts as [|t' ts IH]; intros p t Hp Hts.
  - cbn. apply split_comma_whole. intros [?|?]%elem_of_app; [done|].
    apply Forall_cons in Hts as [(_ & _ & Ht) _]. done.
  - apply Forall_cons in Hts as [(_ & _ & Ht) Hts].
    change (join_topics (t :: t' :: ts))
      with (t ++ COMMA :: ([32%N] ++ join_topics (t' :: ts))).
    rewrite app_assoc, split_comma_prefix.
    + rewrite (IH [32%N] t'); [done| |done].
      intros [[=]|?%elem_of_nil]%elem_of_cons; done.
    + intros [?|?]%elem_of_app; done.
Qed.

Lemma parse_joined (ts : list jsstring) :
  Forall clean_topic ts ->
  parse_topics (join_topics ts) = ts.
Proof.
  intros Hts. unfold parse_topics. destruct ts as [|t ts]; [done|].
  pose proof (split_comma_joined [] t ts (not_elem_of_nil _) Hts) as Hs.
  cbn [app] in Hs. rewrite Hs. cbn [map]. apply Forall_cons in Hts as [(Hne & Htrim & _) Hts].
  rewrite Htrim, filter_cons_True by done. f_equal. clear Hs.
  induction Hts as [|u us (Hne' & Htrim' & _) _ IH]; [done|].
  cbn [map]. rewrite trim_leading_space, Htrim', filter_cons_True by done.
  by rewrite IH.
Qed.

(** The topics field reads back what it shows: for a list of topics
    that are not empty, trimmed and free of commas, parsing the text
    [topics.join(', ')] gives the list again; so two such lists that
    show the same text are the same list. *)
Theorem topics_round_trip (ts : list jsstring) :
  Forall clean_topic ts ->
  parse_topics (join_topics ts) = ts /\
  (forall ts',
     Forall clean_topic ts' -> join_topics ts' = join_topics ts -> ts' = ts).
Proof.
  intros Hts. split; [by apply parse_joined|].
  intros ts' Hts' Hshown.
  rewrite <- (parse_joined ts') by done.
  rewrite <- (parse_joined ts) by done.
  by rewrite Hshown.
Qed.

(** Whatever is typed in the topics field, the topics kept are not
    empty, have no white space at either end and contain no comma; so the
    field reads its own text back unchanged. *)
Theorem parsed_topics_clean (value : jsstring) :
  Forall clean_topic (parse_topics value) /\
  parse_topics (join_topics (parse_topics value)) = parse_topics value.
Proof.
  assert (Hclean : Forall clean_topic (parse_topics value)).
  { apply Forall_forall. intros t Ht. unfold parse_topics in Ht.
    apply list_elem_of_filter in Ht as [Hne Ht].
    apply list_elem_of_fmap in Ht as (piece & -> & Hpiece).
    split; [done|]. split; [apply trim_idempotent|].
    intros Hin%trim_subseteq. by apply (split_comma_pieces value piece). }
  split; [done|]. by apply parse_joined.
Qed.

End Topics.

Section TopicsField.

Import AdminPage AdminActions.

Variable backend : Backend Data.

Lemma split_comma_trailing (v : jsstring) :
  split_comma (v ++ [COMMA]) = split_comma v ++ [[]].
Proof.
  induction v as [|c v IH]; [done|]. cbn [split_comma app].
  destruct (c =? COMMA)%N; rewrite IH; [done|].
  pose proof (split_comma_nonempty v). by destruct (split_comma v).
Qed.

Lemma parse_trailing_comma (v : jsstring) :
  parse_topics (v ++ [COMMA]) = parse_topics v.
Proof.
  unfold parse_topics. rewrite split_comma_trailing, map_app, filter_app.
  cbn [map]. change (Js.trim []) with (@nil N).
  rewrite filter_cons_False by tauto. by rewrite filter_nil, app_nil_r.
Qed.

(** A comma typed at the end of the topics field is lost: it adds no
    topic to any text, and typed after the text the field shows it leaves
    the form as it was, so the field goes on showing the text without
    the comma. *)
Theorem trailing_comma_is_dropped (st : State) (h : list Event) :
  Forall clean_topic (topics (manualForm st)) ->
  (forall value,
     parse_topics (value ++ Js.lit ",") = parse_topics value) /\
  run backend (onTopicsChange st (topics_value st ++ Js.lit ",")) st h =
  mkRun st h (Returned tt).
Proof.
  intros Hclean. split; [apply parse_trailing_comma|].
  unfold onTopicsChange, topics_value, setManualForm. unfold_prog. cbn [run].
  change (Js.lit ",") with [COMMA].
  rewrite parse_trailing_comma, parse_joined by done.
  by destruct st as [? ? ? ? ? ? ? ? []].
Qed.

End TopicsField.

Section AdminMore.

Import AdminPage AdminActions.

Variable API_BASE : jsstring.
Variable backend : Backend Data.

(** When the POST of the manual form fails, what the user typed is kept:
    the form is untouched, the message of the failure is in the error
    state, the loading state is off, and nothing is refreshed. *)
Theorem manual_save_failure_keeps_form (st : State) (h : list Event)
    (res : FetchResult Data) (msg : jsstring) :
  blank (title (manualForm st)) || blank (url (manualForm st)) = false ->
  backend h (save_request API_BASE (manualForm st)) = res ->
  save_failure res msg ->
  run backend (handleManualSave API_BASE st) st h =
  mkRun
    (mkState (url_input st) false (preview st) (Some msg) (success st)
       (articles st) (stats st) (addMode st) (manualForm st))
    (h ++ [Requested (save_request API_BASE (manualForm st))])
    (Returned tt).
Proof.
  intros Hblank Hres Hfail. unfold handleManualSave. rewrite Hblank.
  unfold setLoading, setError, with_error. unfold_prog. cbn.
  rewrite Hres.
  destruct Hfail as [e|[o b] e Hb|[o b] d Hb Ho]; cbn in *; subst; cbn;
    reflexivity.
Qed.

(** When the POST of the manual form succeeds, the form is emptied, the
    success message names the title as typed, the error is cleared and
    the loading state is off; the stats and then the articles are asked
    again, after the POST, and the message is set to disappear after
    three seconds. *)
Theorem manual_save_success_resets (st : State) (h : list Event) (d : Data) :
  blank (title (manualForm st)) || blank (url (manualForm st)) = false ->
  backend h (save_request API_BASE (manualForm st)) =
    Resolved (mkResponse true (inr d)) ->
  let r := run backend (handleManualSave API_BASE st) st h in
  manualForm (final r) = emptyArticle /\
  success (final r) = Some (Js.lit "Added: " ++ title (manualForm st)) /\
  error (final r) = None /\
  loading (final r) = false /\
  requests (events r) =
    requests h ++
    [save_request API_BASE (manualForm st);
     mkRequest GET (API_BASE ++ Js.lit "/admin/stats") None;
     mkRequest GET (API_BASE ++ Js.lit "/articles?limit=100") None] /\
  Scheduled 3000 ∈ events r /\
  outcome r = Returned tt.
Proof.
  intros Hblank Hres r. subst r. unfold handleManualSave. rewrite Hblank.
  unfold setLoading, setError, with_error, setSuccess, with_success,
    setManualForm, fetchStats, fetchArticles, setStats, setArticles.
  unfold_prog. cbn. rewrite Hres. cbn.
  repeat match goal with
  | |- context [match backend ?a ?b with _ => _ end] =>
      destruct (backend a b) as [?|[? [?|?]]]; cbn
  end;
  rewrite ?requests_snoc_logged, ?requests_snoc_request;
  repeat split;
  try (rewrite <- ?app_assoc; cbn; unfold requests;
       rewrite ?omap_app; cbn; rewrite ?app_nil_r, <- ?app_assoc; reflexivity);
  try (apply elem_of_app; right; apply list_elem_of_singleton; reflexivity).
Qed.

(** The refresh of the list does not look at the status of the answer:
    any answer whose JSON has no articles, an error body for one,
    empties the list of the panel, and no error is shown. *)
Theorem refresh_without_articles_empties_list (st : State) (h : list Event)
    (o : bool) (d : Data) :
  backend h (mkRequest GET (API_BASE ++ Js.lit "/articles?limit=100") None) =
    Resolved (mkResponse o (inr d)) ->
  data_articles d = None ->
  run backend (fetchArticles API_BASE) st h =
  mkRun
    (mkState (url_input st) (loading st) (preview st) (error st) (success st)
       [] (stats st) (addMode st) (manualForm st))
    (h ++ [Requested
             (mkRequest GET (API_BASE ++ Js.lit "/articles?limit=100") None)])
    (Returned tt).
Proof.
  intros Hres Hnone. unfold fetchArticles, setArticles. unfold_prog. cbn.
  rewrite Hres. cbn. by rewrite Hnone.
Qed.

Variable confirm : jsstring -> bool.

(** Delete asks first, and does nothing when the answer is no.  When the
    DELETE is rejected or its status is not ok, the message goes to the
    error state and nothing is refreshed, so the list is as before.  When
    it succeeds, the stats and then the articles are asked again; the
    list is never edited locally, and an earlier error message is left in
    place. *)
Theorem delete_cases (st : State) (h : list Event) (articleId : ArticleId)
    (articleTitle : jsstring) :
  let r := run backend
             (handleDelete API_BASE confirm articleId articleTitle) st h in
  if confirm (delete_prompt articleTitle) then
    match backend h (delete_request API_BASE articleId) with
    | Rejected e =>
        r = mkRun (with_error (Some (message e)) st)
              (h ++ [Requested (delete_request API_BASE articleId)])
              (Returned tt)
    | Resolved res =>
        if ok res then
          requests (events r) =
            requests h ++
            [delete_request API_BASE articleId;
             mkRequest GET (API_BASE ++ Js.lit "/admin/stats") None;
             mkRequest GET (API_BASE ++ Js.lit "/articles?limit=100") None] /\
          error (final r) = error st /\
          outcome r = Returned tt
        else
          r = mkRun
                (with_error (Some (Js.lit "Failed to delete article")) st)
                (h ++ [Requested (delete_request API_BASE articleId)])
                (Returned tt)
    end
  else r = mkRun st h (Returned tt).
Proof.
  intros r. subst r. unfold handleDelete.
  destruct (confirm (delete_prompt articleTitle)); cbn [negb]; [|done].
  unfold setError, fetchStats, fetchArticles, setStats, setArticles.
  unfold_prog. cbn.
  destruct (backend h _) as [e|[[] b]]; cbn; [done| |done].
  repeat match goal with
  | |- context [match backend ?a ?b with _ => _ end] =>
      destruct (backend a b) as [?|[? [?|?]]]; cbn
  end;
  repeat split;
  unfold requests; rewrite ?omap_app; cbn;
  rewrite ?app_nil_r, <- ?app_assoc; reflexivity.
Qed.

End AdminMore.

(* ===================================================================== *)
(** ** Properties of the discovery agent *)
(* ===================================================================== *)

Section AgentFacts.

Import DiscoverAgent.

Local Set Warnings "-clear-no-such-hyp".

Variable API_BASE : jsstring.
Variable onArticlesAdded : bool.
Variable backend : Backend Data.

Lemma agent_save_facts (st : State) (rec : Rec) (h : list Event) :
  let r := run backend (handleSave API_BASE onArticlesAdded rec) st h in
  outcome r = Returned tt /\
  events r = h ++ [Requested (save_request API_BASE rec)] /\
  savingIds (final r) = savingIds st ∖ {[rec_url rec]} /\
  match backend h (save_request API_BASE rec) with
  | Resolved (mkResponse true _) =>
      savedIds (final r) = savedIds st ∪ {[rec_url rec]} /\
      error (final r) = error st /\
      articlesAdded (final r) =
        (articlesAdded st + (if onArticlesAdded then 1 else 0))%nat
  | _ =>
      savedIds (final r) = savedIds st /\
      is_Some (error (final r)) /\
      articlesAdded (final r) = articlesAdded st
  end.
Proof.
  intros r. subst r.
  unfold handleSave, setSavingIds_fn, setSavedIds_fn, setError,
    call_onArticlesAdded.
  unfold_prog. cbn.
  assert (Hset : (savingIds st ∪ {[rec_url rec]}) ∖ {[rec_url rec]} =
                 savingIds st ∖ {[rec_url rec]}) by set_solver.
  destruct (backend h _) as [e|[[] [e'|d]]]; cbn;
    try destruct onArticlesAdded; cbn;
    rewrite ?Nat.add_0_r, ?Nat.add_1_r; repeat split; eauto.
Qed.

(** Saving a recommendation never leaves its button in the saving state:
    whatever the backend answers, the handler returns after its one
    POST with the url out of savingIds.  The url joins savedIds, and the
    parent is told, exactly when the answer is ok; otherwise savedIds is
    as before and an error message is set. *)
Theorem agent_save_settles (st : State) (rec : Rec) (h : list Event) :
  let r := run backend (handleSave API_BASE onArticlesAdded rec) st h in
  outcome r = Returned tt /\
  events r = h ++ [Requested (save_request API_BASE rec)] /\
  (rec_url rec ∉ savingIds (final r)) /\
  (forall u, u ≠ rec_url rec ->
             (u ∈ savingIds (final r) <-> u ∈ savingIds st)) /\
  match backend h (save_request API_BASE rec) with
  | Resolved (mkResponse true _) =>
      savedIds (final r) = savedIds st ∪ {[rec_url rec]} /\
      error (final r) = error st /\
      articlesAdded (final r) =
        (articlesAdded st + (if onArticlesAdded then 1 else 0))%nat
  | _ =>
      savedIds (final r) = savedIds st /\
      is_Some (error (final r)) /\
      articlesAdded (final r) = articlesAdded st
  end.
Proof.
  intros r. subst r.
  destruct (agent_save_facts st rec h) as (Hout & Hev & Hsaving & Hcase).
  split; [exact Hout|]. split; [exact Hev|].
  split; [rewrite Hsaving; set_solver|].
  split; [|exact Hcase].
  intros u Hu. rewrite Hsaving. set_solver.
Qed.

Lemma save_each_facts (l : list Rec) (st : State) (h : list Event) :
  let r := run backend (save_each API_BASE onArticlesAdded l) st h in
  outcome r = Returned tt /\
  requests (events r) = requests h ++ map (save_request API_BASE) l /\
  savedIds st ⊆ savedIds (final r) /\
  savingIds (final r) ⊆ savingIds st /\
  (forall u, u ∈ savedIds (final r) ->
             u ∈ savedIds st \/ u ∈ map rec_url l).
Proof.
  revert st h. induction l as [|rec l IH]; intros st h r; subst r.
  - cbn. rewrite app_nil_r. repeat split; auto.
  - cbn [save_each]. unfold mbind, Prog_bind. rewrite run_bind.
    destruct (agent_save_facts st rec h) as (Hout & Hev & Hsaving & Hcase).
    rewrite Hout.
    destruct (IH (final (run backend
                          (handleSave API_BASE onArticlesAdded rec) st h))
                 (events (run backend
                          (handleSave API_BASE onArticlesAdded rec) st h)))
      as (IHout & IHreq & IHsaved & IHsaving & IHonly).
    assert (Hsaved :
      savedIds st ⊆
        savedIds (final (run backend
                           (handleSave API_BASE onArticlesAdded rec) st h)) /\
      forall u,
        u ∈ savedIds (final (run backend
                               (handleSave API_BASE onArticlesAdded rec) st h))
        -> u ∈ savedIds st \/ u = rec_url rec).
    { destruct (backend h _) as [e|[[] b]];
        destruct Hcase as (-> & _ & _); set_solver. }
    destruct Hsaved as [Hmono Honly].
    split; [done|]. split.
    { rewrite IHreq, Hev, requests_snoc_request, <- app_assoc. done. }
    split; [set_solver|]. split; [set_solver|].
    intros u Hu. destruct (IHonly u Hu) as [Hu'|Hu'].
    + destruct (Honly u Hu') as [?| ->]; [by left|right]. cbn [map]. left.
    + right. cbn [map]. by right.
Qed.

(** Save All posts each recommendation that was not saved when the
    panel was rendered, one after the other in their order, and goes
    through the whole list whatever the answers are: a failure does not
    stop it.  It posts nothing for a saved recommendation, nothing when
    there is no result; it never removes a url from savedIds and never
    leaves a url in the saving state. *)
Theorem save_all_goes_through (st : State) (h : list Event) :
  let r := run backend (handleSaveAll API_BASE onArticlesAdded st) st h in
  let recs :=
    match result st with
    | Some data => default [] (recommendations data)
    | None => []
    end in
  outcome r = Returned tt /\
  requests (events r) =
    requests h ++
    map (save_request API_BASE)
      (filter (fun rec => rec_url rec ∉ savedIds st) recs) /\
  savedIds st ⊆ savedIds (final r) /\
  savingIds (final r) ⊆ savingIds st /\
  (forall u, u ∈ savedIds (final r) ->
             u ∈ savedIds st \/ u ∈ map rec_url recs).
Proof.
  intros r recs. subst r recs. unfold handleSaveAll.
  destruct (result st) as [[dt [recs|]]|]; cbn [default recommendations];
    try (cbn; rewrite app_nil_r; repeat split; auto).
  destruct (save_each_facts (unsaved_of st recs) st h)
    as (Hout & Hreq & Hsaved & Hsaving & Honly).
  repeat split; try done.
  intros u Hu. destruct (Honly u Hu) as [?|Hin]; [by left|right].
  apply list_elem_of_fmap in Hin as (rec & -> & Hrec).
  apply list_elem_of_filter in Hrec as [_ Hrec].
  apply list_elem_of_fmap. by exists rec.
Qed.

End AgentFacts.

(* ===================================================================== *)
(** ** The two shells *)
(* ===================================================================== *)

Section Shells.

Variable API_BASE : jsstring.
Variable backend : Backend App.Data.

(** In the cards mode the later shell does to its list, its error and
    its flags what the earlier shell did, with the same requests and
    console output: for a dismiss, and for a fetch (which the earlier
    shell calls Shuffle). *)
Theorem later_shell_extends_earlier (st : App.State) (articleId : ArticleId)
    (h : list Event) :
  App.viewMode st = App.cards ->
  (let r1 := run backend (AppV1.handleDismiss API_BASE articleId)
               (earlier st) h in
   let r2 := run backend (App.handleDismiss API_BASE st articleId) st h in
   final r1 = earlier (final r2) /\ events r1 = events r2 /\
   outcome r1 = outcome r2) /\
  (let r1 := run backend (AppV1.handleShuffle API_BASE) (earlier st) h in
   let r2 := run backend (App.fetchArticles API_BASE st) st h in
   final r1 = earlier (final r2) /\ events r1 = events r2).
Proof.
  intros Hmode. split.
  - unfold AppV1.handleDismiss, App.handleDismiss, AppV1.setArticles_fn,
      App.setArticles, App.setArticles_fn.
    unfold_prog. cbn. rewrite Hmode.
    destruct (decide (App.cards = App.single)) as [|_]; [done|].
    destruct (backend h _) as [e|r1]; cbn; [done|].
    destruct (backend _ _) as [e|[o [e'|[[[|first l]|]]]]]; cbn; done.
  - unfold AppV1.handleShuffle, AppV1.fetchArticles, App.fetchArticles,
      AppV1.setShuffling, AppV1.setArticles, AppV1.setArticles_fn,
      AppV1.setError, AppV1.setLoading, App.setShuffling, App.setArticles,
      App.setArticles_fn, App.setSingleIndex, App.setSingleIndex_fn,
      App.setError, App.setLoading.
    unfold_prog. cbn. rewrite Hmode.
    destruct (backend h _) as [e|[[] [e'|[[l|]]]]]; cbn; done.
Qed.

End Shells.

Lemma later_shell_extends_earlier_witness :
  App.viewMode Samples.two_cards = App.cards /\
  final (run (Samples.serving [Samples.sample_article 3])
           (AppV1.handleDismiss Samples.api (IdNum 2))
           (earlier Samples.two_cards) []) =
  AppV1.mkState [Samples.sample_article 1; Samples.sample_article 3]
    false None false /\
  final (run (Samples.serving [Samples.sample_article 3])
           (AppV1.handleDismiss Samples.api (IdNum 2))
           (earlier Samples.two_cards) []) =
  earlier
    (final (run (Samples.serving [Samples.sample_article 3])
              (App.handleDismiss Samples.api Samples.two_cards (IdNum 2))
              Samples.two_cards [])).
Proof.
  destruct (later_shell_extends_earlier Samples.api
              (Samples.serving [Samples.sample_article 3])
              Samples.two_cards (IdNum 2) [] eq_refl)
    as [(Hfinal & _) _].
  split; [reflexivity|]. split; [reflexivity|exact Hfinal].
Defined.

(* ===================================================================== *)
(** ** The further properties at concrete inputs *)
(* ===================================================================== *)

Lemma reload_restores_saved_witness :
  App.mount Samples.api Samples.offline Samples.ids_text Samples.parse_one
    Samples.stored_one = Some Samples.mounted_offline /\
  Samples.parse_one
    (Samples.ids_text
       (App.savedArticles (App.state
          (App.steps Samples.api Samples.offline Samples.ids_text
             Samples.mounted_offline MoreSamples.save_and_undo)))) =
    Some (App.savedArticles (App.state
            (App.steps Samples.api Samples.offline Samples.ids_text
               Samples.mounted_offline MoreSamples.save_and_undo))) /\
  exists w',
    App.mount Samples.api (Samples.serving [Samples.sample_article 3])
      Samples.ids_text Samples.parse_one
      (App.localStorage
         (App.steps Samples.api Samples.offline Samples.ids_text
            Samples.mounted_offline MoreSamples.save_and_undo)) = Some w' /\
    App.savedArticles (App.state w') =
      App.savedArticles (App.state
        (App.steps Samples.api Samples.offline Samples.ids_text
           Samples.mounted_offline MoreSamples.save_and_undo)).
Proof.
  assert (Hm : App.mount Samples.api Samples.offline Samples.ids_text
                 Samples.parse_one Samples.stored_one
               = Some Samples.mounted_offline) by reflexivity.
  split; [exact Hm|]. split; [reflexivity|].
  exact (reload_restores_saved Samples.api Samples.offline Samples.ids_text
           Samples.parse_one (Samples.serving [Samples.sample_article 3])
           Samples.stored_one Samples.mounted_offline
           MoreSamples.save_and_undo Hm eq_refl eq_refl).
Defined.

Lemma fetchArticles_success_witness :
  Samples.serving [Samples.sample_article 3] []
    (App.get (App.random_url Samples.api
                (count_of (App.viewMode Samples.two_cards)))) =
    Resolved (mkResponse true
                (inr (App.mkData (Some [Samples.sample_article 3])))) /\
  run (Samples.serving [Samples.sample_article 3])
    (App.fetchArticles Samples.api Samples.two_cards) Samples.two_cards [] =
  mkRun
    (App.mkState [Samples.sample_article 3] [] false None false App.discover
       App.cards 0 false false)
    [Requested (mkRequest GET (Js.lit "/api/articles/random?count=4") None)]
    (Returned tt).
Proof.
  split; [reflexivity|].
  exact (fetchArticles_success Samples.api
           (Samples.serving [Samples.sample_article 3])
           Samples.two_cards [] [Samples.sample_article 3] eq_refl).
Defined.

Lemma dismiss_single_replaces_list_witness :
  App.viewMode MoreSamples.one_single = App.single /\
  App.articles
    (final (run (Samples.serving Samples.three_articles)
              (App.handleDismiss Samples.api MoreSamples.one_single (IdNum 1))
              MoreSamples.one_single [])) = Samples.three_articles /\
  App.singleIndex
    (final (run (Samples.serving Samples.three_articles)
              (App.handleDismiss Samples.api MoreSamples.one_single (IdNum 1))
              MoreSamples.one_single [])) = 0%nat.
Proof.
  split; [reflexivity|].
  exact (dismiss_single_replaces_list Samples.api
           (Samples.serving Samples.three_articles)
           MoreSamples.one_single (IdNum 1) []
           (mkResponse true (inr (App.mkData (Some Samples.three_articles))))
           true Samples.three_articles eq_refl eq_refl eq_refl).
Defined.

Lemma dismiss_without_replacement_witness :
  MoreSamples.dismiss_only []
    (App.post (App.dismiss_url Samples.api (IdNum 1))) =
    Resolved (mkResponse true (inr (App.mkData None))) /\
  replacement_failure
    (Resolved (mkResponse false (inr (App.mkData None))))
    App.undefined_length /\
  run MoreSamples.dismiss_only
    (App.handleDismiss Samples.api Samples.two_cards (IdNum 1))
    Samples.two_cards [] =
  mkRun Samples.two_cards
    [Requested (mkRequest POST (Js.lit "/api/articles/1/dismiss") None);
     Requested (mkRequest GET (Js.lit "/api/articles/random?count=1") None);
     Logged (Js.lit "Failed to dismiss article:") App.undefined_length]
    (Returned tt).
Proof.
  assert (Hf : replacement_failure
                 (Resolved (mkResponse false (inr (App.mkData None))))
                 App.undefined_length)
    by exact (replacement_missing
                (mkResponse false (inr (App.mkData None)))
                (App.mkData None) eq_refl eq_refl).
  split; [reflexivity|]. split; [exact Hf|].
  exact (dismiss_without_replacement Samples.api MoreSamples.dismiss_only
           Samples.two_cards (IdNum 1) []
           (mkResponse true (inr (App.mkData None))) _ _
           eq_refl eq_refl Hf).
Defined.

Lemma saved_tab_cards_are_saved_witness :
  App.activeTab MoreSamples.saved_cards = App.saved /\
  MoreSamples.saved_card ∈ cards_of (App.render_main MoreSamples.saved_cards) /\
  App.card_isSaved MoreSamples.saved_card = true /\
  exists a,
    App.card_article MoreSamples.saved_card = Some a /\
    a ∈ App.savedArticles MoreSamples.saved_cards.
Proof.
  assert (Hc : MoreSamples.saved_card ∈
               cards_of (App.render_main MoreSamples.saved_cards)).
  { right. left. }
  split; [reflexivity|]. split; [exact Hc|].
  exact (saved_tab_cards_are_saved MoreSamples.saved_cards
           MoreSamples.saved_card eq_refl Hc).
Defined.

Lemma two_topics_clean : Forall clean_topic MoreSamples.two_topics.
Proof.
  repeat constructor; try discriminate;
    intros H; apply list_elem_of_In in H; cbn in H;
    repeat destruct H as [H|H]; try discriminate H; exact H.
Qed.

Lemma topics_round_trip_witness :
  Forall clean_topic MoreSamples.two_topics /\
  AdminActions.join_topics MoreSamples.two_topics = Js.lit "AI, Deep work" /\
  AdminActions.parse_topics
    (AdminActions.join_topics MoreSamples.two_topics) =
    MoreSamples.two_topics.
Proof.
  split; [exact two_topics_clean|]. split; [reflexivity|].
  exact (proj1 (topics_round_trip MoreSamples.two_topics two_topics_clean)).
Defined.

Lemma filled_form_topics_clean :
  Forall clean_topic
    (AdminPage.topics (AdminPage.manualForm Samples.filled_form)).
Proof.
  repeat constructor; try discriminate;
    intros H; apply list_elem_of_In in H; cbn in H;
    repeat destruct H as [H|H]; try discriminate H; exact H.
Qed.

Lemma trailing_comma_is_dropped_witness :
  Forall clean_topic
    (AdminPage.topics (AdminPage.manualForm Samples.filled_form)) /\
  (forall value,
     AdminActions.parse_topics (value ++ Js.lit ",") =
     AdminActions.parse_topics value) /\
  run Samples.admin_offline
    (AdminActions.onTopicsChange Samples.filled_form
       (AdminActions.topics_value Samples.filled_form ++ Js.lit ","))
    Samples.filled_form [] =
  mkRun Samples.filled_form [] (Returned tt).
Proof.
  split; [exact filled_form_topics_clean|].
  exact (trailing_comma_is_dropped Samples.admin_offline Samples.filled_form
           [] filled_form_topics_clean).
Defined.

Lemma manual_save_failure_keeps_form_witness :
  AdminPage.blank (AdminPage.title (AdminPage.manualForm Samples.filled_form))
  || AdminPage.blank (AdminPage.url (AdminPage.manualForm Samples.filled_form))
  = false /\
  save_failure
    (MoreSamples.admin_refusing []
       (AdminPage.save_request Samples.api
          (AdminPage.manualForm Samples.filled_form)))
    (Js.lit "Article already exists") /\
  run MoreSamples.admin_refusing
    (AdminPage.handleManualSave Samples.api Samples.filled_form)
    Samples.filled_form [] =
  mkRun
    (AdminPage.mkState [] false None (Some (Js.lit "Article already exists"))
       None [] None AdminPage.manual
       (AdminPage.manualForm Samples.filled_form))
    [Requested
       (AdminPage.save_request Samples.api
          (AdminPage.manualForm Samples.filled_form))]
    (Returned tt).
Proof.
  assert (Hf : save_failure
                 (MoreSamples.admin_refusing []
                    (AdminPage.save_request Samples.api
                       (AdminPage.manualForm Samples.filled_form)))
                 (Js.lit "Article already exists"))
    by exact (save_refused
                (mkResponse false
                   (inr (AdminPage.mkData
                           (Some (Js.lit "Article already exists")) None None)))
                _ eq_refl eq_refl).
  split; [reflexivity|]. split; [exact Hf|].
  exact (manual_save_failure_keeps_form Samples.api MoreSamples.admin_refusing
           Samples.filled_form [] _ _ eq_refl eq_refl Hf).
Defined.

Lemma manual_save_success_resets_witness :
  AdminPage.blank (AdminPage.title (AdminPage.manualForm Samples.filled_form))
  || AdminPage.blank (AdminPage.url (AdminPage.manualForm Samples.filled_form))
  = false /\
  AdminPage.manualForm
    (final (run MoreSamples.admin_accepting
              (AdminPage.handleManualSave Samples.api Samples.filled_form)
              Samples.filled_form [])) = AdminPage.emptyArticle /\
  AdminPage.success
    (final (run MoreSamples.admin_accepting
              (AdminPage.handleManualSave Samples.api Samples.filled_form)
              Samples.filled_form [])) = Some (Js.lit "Added:  A title ") /\
  AdminPage.articles
    (final (run MoreSamples.admin_accepting
              (AdminPage.handleManualSave Samples.api Samples.filled_form)
              Samples.filled_form [])) = [Samples.sample_article 1].
Proof.
  destruct (manual_save_success_resets Samples.api MoreSamples.admin_accepting
              Samples.filled_form []
              (AdminPage.mkData None (Some [Samples.sample_article 1]) (Some 1))
              eq_refl eq_refl)
    as (Hform & Hsuccess & _).
  split; [reflexivity|]. split; [exact Hform|]. split; [exact Hsuccess|].
  reflexivity.
Defined.

Lemma refresh_without_articles_empties_list_witness :
  AdminPage.data_articles
    (AdminPage.mkData (Some (Js.lit "Article already exists")) None None) =
    None /\
  AdminPage.articles
    (final (run MoreSamples.admin_refusing
              (AdminPage.fetchArticles Samples.api)
              (final (run MoreSamples.admin_accepting
                        (AdminPage.fetchArticles Samples.api)
                        Samples.filled_form [])) [])) = [] /\
  AdminPage.articles
    (final (run MoreSamples.admin_accepting
              (AdminPage.fetchArticles Samples.api)
              Samples.filled_form [])) = [Samples.sample_article 1].
Proof.
  split; [reflexivity|]. split; [|reflexivity].
  exact (f_equal AdminPage.articles
           (f_equal final
              (refresh_without_articles_empties_list Samples.api
                 MoreSamples.admin_refusing
                 (final (run MoreSamples.admin_accepting
                           (AdminPage.fetchArticles Samples.api)
                           Samples.filled_form [])) [] false
                 (AdminPage.mkData (Some (Js.lit "Article already exists"))
                    None None) eq_refl eq_refl))).
Defined.
